(** * autosit: a reconciliation agent for a DNS-named SIT tunnel

    A shallow embedding of [autosit.py] and the properties of its
    reconciliation engine.

    The program is a straight line of blocking calls to three outside
    parties: a DNS-over-HTTPS service ([requests.get]), one file under
    [/tmp] ([open]) and the commands [ip], [iptables], [ip6tables] and
    [sysctl] ([subprocess.run]).  Every function of the script becomes a
    computation in a small monad that threads the file system and the
    operating system, may raise a Python exception, and records every
    outside call it makes in a log. *)

From Stdlib Require Import ZArith String Ascii List Lia DecimalString.
From stdpp Require Import base option list strings gmap.

Local Open Scope string_scope.
Local Open Scope list_scope.
Local Open Scope Z_scope.

(** ** Python exceptions and results *)

(** The exceptions the script can meet.  Messages are kept only where the
    script builds them itself; the others carry the value that caused
    them. *)
Inductive exn : Type :=
| ConnectionError (url : string)           (* requests.get itself failed *)
| HTTPError (status_code : Z)              (* response.raise_for_status() *)
| JSONDecodeError                          (* response.json() *)
| RuntimeError (msg : string)
| KeyError (key : string)
| IndexError
| AddressValueError (address : string)
| FileNotFoundError (path : string)
| UnicodeDecodeError                       (* a text file that does not decode *)
| PermissionError (path : string)
| CalledProcessError (returncode : Z) (cmd : list string).

Inductive result (A : Type) : Type :=
| Ok (a : A)
| Raise (e : exn).
Arguments Ok {A} a.
Arguments Raise {A} e.

Definition is_Ok {A} (r : result A) : bool :=
  match r with Ok _ => true | Raise _ => false end.

(** ** Python strings *)

Definition LF : ascii := "010"%char.
Definition CR : ascii := "013"%char.
Definition nl : string := String LF "".

(** [str(n)] for an integer. *)
Definition str_int (n : Z) : string := NilZero.string_of_int (Z.to_int n).

(** [sep.join(parts)] *)
Fixpoint join (sep : string) (parts : list string) : string :=
  match parts with
  | [] => ""
  | [p] => p
  | p :: rest => p +:+ sep +:+ join sep rest
  end.

(** [s.split(c)] for a one-character separator: never an empty list. *)
Fixpoint split (c : ascii) (s : string) : list string :=
  match s with
  | "" => [""]
  | String a s' =>
      if Ascii.eqb a c then "" :: split c s'
      else match split c s' with
           | [] => [String a ""]
           | p :: ps => String a p :: ps
           end
  end.

(** [c in s] *)
Fixpoint contains (c : ascii) (s : string) : bool :=
  match s with
  | "" => false
  | String a s' => Ascii.eqb a c || contains c s'
  end.

Fixpoint all_chars (p : ascii -> bool) (s : string) : bool :=
  match s with
  | "" => true
  | String a s' => p a && all_chars p s'
  end.

(** ** The part of the standard [ipaddress] module the script uses *)

Module ipaddress.

(** An [IPv4Address] object holds the address as the integer [_ip]. *)
Record IPv4Address : Type := mk_IPv4Address { _ip : Z }.

Definition eqb (a b : IPv4Address) : bool := _ip a =? _ip b.

(** [octet_str.isascii() and octet_str.isdigit()], one character. *)
Definition is_decimal_digit (a : ascii) : bool :=
  (48 <=? nat_of_ascii a)%nat && (nat_of_ascii a <=? 57)%nat.

(** [int(octet_str, 10)] on a string of decimal digits. *)
Fixpoint int10 (acc : Z) (s : string) : Z :=
  match s with
  | "" => acc
  | String a s' => int10 (10 * acc + (Z.of_nat (nat_of_ascii a) - 48)) s'
  end.

(** [_parse_octet]: [None] stands for its [ValueError]. *)
Definition _parse_octet (octet_str : string) : option Z :=
  match octet_str with
  | "" => None                                 (* Empty octet not permitted *)
  | String first _ =>
      if negb (all_chars is_decimal_digit octet_str) then None
      else if (3 <? String.length octet_str)%nat then None
      else if negb (String.eqb octet_str "0") && Ascii.eqb first "0"%char
           then None                           (* Leading zeros are not permitted *)
      else let octet_int := int10 0 octet_str in
           if 255 <? octet_int then None else Some octet_int
  end.

(** [int.from_bytes(octets, 'big')] *)
Definition from_bytes_big (octets : list Z) : Z :=
  fold_left (fun acc b => acc * 256 + b) octets 0.

(** [_ip_int_from_string] *)
Definition _ip_int_from_string (ip_str : string) : result Z :=
  if String.eqb ip_str "" then Raise (AddressValueError ip_str)
  else
    let octets := split "."%char ip_str in
    if negb (length octets =? 4)%nat then Raise (AddressValueError ip_str)
    else match mapM _parse_octet octets with
         | Some bytes => Ok (from_bytes_big bytes)
         | None => Raise (AddressValueError ip_str)
         end.

(** [IPv4Address(address)] for a [str] argument. *)
Definition of_str (address : string) : result IPv4Address :=
  if contains "/"%char address then Raise (AddressValueError address)
  else match _ip_int_from_string address with
       | Ok n => Ok (mk_IPv4Address n)
       | Raise e => Raise e
       end.

(** [ip_int.to_bytes(4, 'big')] *)
Definition to_bytes4_big (ip_int : Z) : list Z :=
  [ Z.land (Z.shiftr ip_int 24) 255; Z.land (Z.shiftr ip_int 16) 255;
    Z.land (Z.shiftr ip_int 8) 255; Z.land ip_int 255 ].

(** [str(address)], that is [_string_from_ip_int]. *)
Definition str (a : IPv4Address) : string :=
  join "." (map str_int (to_bytes4_big (_ip a))).

End ipaddress.

Import ipaddress (IPv4Address).

(** ** Text files *)

(** Reading in text mode translates the line endings [\r\n] and [\r] to
    [\n] (universal newlines, the default of [open]). *)
Fixpoint universal_newlines (s : string) : string :=
  match s with
  | "" => ""
  | String a s' =>
      if Ascii.eqb a CR then
        match s' with
        | String b s'' =>
            if Ascii.eqb b LF then String LF (universal_newlines s'')
            else String LF (universal_newlines s')
        | "" => nl
        end
      else String a (universal_newlines s')
  end.

(** [fp.readline()]: the next line with its newline, and what is left to
    read; the empty string at the end of the file. *)
Fixpoint readline (buf : string) : string * string :=
  match buf with
  | "" => ("", "")
  | String a rest =>
      if Ascii.eqb a LF then (String a "", rest)
      else let '(line, rest') := readline rest in (String a line, rest')
  end.

Definition is_ascii (a : ascii) : bool := (nat_of_ascii a <? 128)%nat.

(** A file open for reading as text, as [readline] meets it: the text it
    can still deliver, line ends translated, and whether a
    [UnicodeDecodeError] waits behind that text.  The reader decodes a
    file piece by piece, so bytes that do not decode only matter once the
    text before them has run out. *)
Record TextIOWrapper : Type := { readable : string; broken : bool }.

(** [fp.readline()] on such a file: the next line when the text at hand
    holds one, the error when it does not and the file is broken, the
    rest of the text at the end of the file. *)
Definition fp_readline (fp : TextIOWrapper) : result (string * TextIOWrapper) :=
  if negb (contains LF (readable fp)) && broken fp then Raise UnicodeDecodeError
  else let '(line, rest) := readline (readable fp) in
       Ok (line, {| readable := rest; broken := broken fp |}).

(** ** The outside world *)

(** One answer record and the JSON body of a DNS-over-HTTPS reply: the
    script reads [Status], [Answer] (which the service omits when it has
    no records) and the [data] of the first answer. *)
Record dns_answer : Type := { data : string }.
Record dns_json : Type := { Status : Z; Answer : option (list dns_answer) }.

(** What [requests.get] brings back: nothing (it raised), or a response
    with its HTTP status and, when the body is JSON, the decoded body. *)
Record Response : Type := { status_code : Z; body : option dns_json }.

(** The collaborators of one run: the operating system as a state machine
    answering each command with a return code (a command that cannot be
    started at all is left out), the HTTPS service, which paths can be
    opened for writing, and how the text layer of the platform reads a
    file that holds bytes outside ASCII: [decode content] is the text
    [readline] can deliver, line ends translated, before a
    [UnicodeDecodeError] comes up, and whether one does.  It depends on
    the encoding of the locale and on the pieces the reader cuts the file
    into. *)
Class Env : Type := {
  World : Type;
  os_exec : World -> list string -> Z * World;
  http_get : string -> option Response;
  writable : string -> bool;
  decode : string -> string * bool
}.

(** Every call that leaves the process, in the order it is made. *)
Inductive event : Type :=
| EvGet (url : string)
| EvRun (argv : list string) (returncode : Z)
| EvOpenRead (path : string)
| EvWrite (path : string) (text : string)
| EvPrint (line : string).

Section Program.
Context `{Env}.

Record store : Type := { fs : gmap string string; os : World }.

(** ** The monad: state, exceptions and a log of events *)

Definition M (A : Type) : Type := store -> result A * store * list event.

#[export] Instance M_ret : MRet M := fun A a s => (Ok a, s, []).

#[export] Instance M_bind : MBind M := fun A B k m s =>
  match m s with
  | (Ok a, s1, t1) => let '(r, s2, t2) := k a s1 in (r, s2, t1 ++ t2)
  | (Raise e, s1, t1) => (Raise e, s1, t1)
  end.

Definition raise {A} (e : exn) : M A := fun s => (Raise e, s, []).

Definition lift {A} (r : result A) : M A := fun s => (r, s, []).

Definition emit (e : event) : M unit := fun s => (Ok tt, s, [e]).

(** [print(line)] *)
Definition print (line : string) : M unit := emit (EvPrint line).

(** [requests.get(url, headers=...)] *)
Definition requests_get (url : string) : M Response := fun s =>
  match http_get url with
  | Some response => (Ok response, s, [EvGet url])
  | None => (Raise (ConnectionError url), s, [EvGet url])
  end.

(** [response.raise_for_status()] *)
Definition raise_for_status (response : Response) : M unit :=
  if (400 <=? status_code response) && (status_code response <? 600)
  then raise (HTTPError (status_code response))
  else mret tt.

(** [response.json()] *)
Definition json (response : Response) : M dns_json :=
  match body response with
  | Some j => mret j
  | None => raise JSONDecodeError
  end.

(** [subprocess.run(argv, ...)]; with [check=True] a non-zero return code
    raises [CalledProcessError].  The result is the return code. *)
Definition subprocess_run (argv : list string) (check : bool) : M Z := fun s =>
  let '(returncode, w) := os_exec (os s) argv in
  let s' := {| fs := fs s; os := w |} in
  if check && negb (returncode =? 0)
  then (Raise (CalledProcessError returncode argv), s', [EvRun argv returncode])
  else (Ok returncode, s', [EvRun argv returncode]).

(** What reading as text makes of the bytes of a file: bytes that are all
    ASCII are their own text in every encoding a locale gives, and never
    fail to decode; other files are read as the platform decodes them. *)
Definition text_layer (content : string) : TextIOWrapper :=
  if all_chars is_ascii content
  then {| readable := universal_newlines content; broken := false |}
  else let '(text, err) := decode content in {| readable := text; broken := err |}.

(** [open(path, "r")]: the file object.  A file that is there can be
    opened: the script runs as root, as its [ip] commands require. *)
Definition open_r (path : string) : M TextIOWrapper := fun s =>
  match fs s !! path with
  | Some content => (Ok (text_layer content), s, [EvOpenRead path])
  | None => (Raise (FileNotFoundError path), s, [EvOpenRead path])
  end.

(** [with open(path, "w") as fp: fp.write(text)]; the script writes
    ASCII text only, which is its own bytes. *)
Definition open_w_write (path text : string) : M unit := fun s =>
  if writable path
  then (Ok tt, {| fs := <[path := text]> (fs s); os := os s |}, [EvWrite path text])
  else (Raise (PermissionError path), s, []).

(** [for x in xs: body(x)] *)
Fixpoint for_each {A} (xs : list A) (body : A -> M unit) : M unit :=
  match xs with
  | [] => mret tt
  | x :: xs' => body x ;; for_each xs' body
  end.

(** ** The script *)

(** The path [f"/tmp/autosit_{tun_name}"], which the script spells out at
    each of its three uses. *)
Definition state_path (tun_name : string) : string := "/tmp/autosit_" +:+ tun_name.

Definition look_up_ip_addr (hostname : string) : M IPv4Address :=
  response ← requests_get
    ("https://cloudflare-dns.com/dns-query?name=" +:+ hostname +:+ "&type=A");
  raise_for_status response;;
  response_json ← json response;
  if negb (Status response_json =? 0) then
    raise (RuntimeError
             ("DNS lookup failed with status " +:+ str_int (Status response_json)))
  else
    answers ← match Answer response_json with
              | Some records => mret records
              | None => raise (KeyError "Answer")
              end;
    first ← match answers with
            | record :: _ => mret record
            | [] => raise IndexError
            end;
    lift (ipaddress.of_str (data first)).

(** The [with open(...) as fp] block of [needs_interface_recreation]: two
    [readline]s, each handed to [IPv4Address] as read. *)
Definition read_tunnel_addrs (tun_name : string) : M (IPv4Address * IPv4Address) :=
  fp ← open_r (state_path tun_name);
  '(line1, fp) ← lift (fp_readline fp);
  old_local_ip ← lift (ipaddress.of_str line1);
  '(line2, fp) ← lift (fp_readline fp);
  old_remote_ip ← lift (ipaddress.of_str line2);
  mret (old_local_ip, old_remote_ip).

Definition needs_interface_recreation
    (local_ip remote_ip : IPv4Address) (tun_name : string) : M bool :=
  returncode ← subprocess_run ["ip"; "link"; "show"; "dev"; tun_name] false;
  if negb (returncode =? 0) then
    print ("Interface `" +:+ tun_name +:+ "` does not exist");;
    mret true
  else
    '(old_local_ip, old_remote_ip) ← read_tunnel_addrs tun_name;
    if negb (ipaddress.eqb local_ip old_local_ip)
       || negb (ipaddress.eqb remote_ip old_remote_ip)
    then
      print "Interface addresses changed";;
      mret true
    else
      mret false.

Definition save_tunnel_addrs
    (local_ip remote_ip : IPv4Address) (tun_name : string) : M unit :=
  print ("Writing tunnel addresses to /tmp/autosit_" +:+ tun_name);;
  open_w_write (state_path tun_name)
    (ipaddress.str local_ip +:+ nl +:+ ipaddress.str remote_ip).

(** The parsed command line.  A prefix is kept as the string typed; a
    route is an [IPv4Network] or [IPv6Network] of which the script only
    takes [str(route)], so it is carried as that text.  An option not given
    is [None]. *)
Record Namespace : Type := {
  local_hostname : string;
  remote_hostname : string;
  tun_name : string;
  with_prefix : list string;
  with_ipv4_route : option (list string);
  with_ipv6_route : option (list string);
  ipv4_mode : string;
  ipv6_mode : string
}.

(** Python truth of an optional list: false for [None] and for []. *)
Definition truthy (routes : option (list string)) : bool :=
  match routes with
  | Some (_ :: _) => true
  | _ => false
  end.

(** The body of [if needs_interface_recreation(...):] in [main], from
    [print(f"(Re)creating interface: ...")] to the IPv6 packet handling
    mode. *)
Definition recreate_interface
    (args : Namespace) (local_host_ip remote_host_ip : IPv4Address) : M unit :=
  print ("(Re)creating interface: " +:+ tun_name args);;
  save_tunnel_addrs local_host_ip remote_host_ip (tun_name args);;
  subprocess_run ["ip"; "link"; "del"; tun_name args] false;;
  print "Creating interface";;
  subprocess_run ["ip"; "tunnel"; "add"; tun_name args; "mode"; "sit";
                  "remote"; ipaddress.str remote_host_ip;
                  "local"; ipaddress.str local_host_ip;
                  "mode"; "any"; "ttl"; "255"] true;;
  print "Bringing up interface";;
  subprocess_run ["ip"; "link"; "set"; "dev"; tun_name args; "up"] true;;
  for_each (with_prefix args) (fun prefix =>
    print ("Adding prefix " +:+ prefix +:+ " to interface");;
    subprocess_run ["ip"; "addr"; "add"; prefix; "dev"; tun_name args] true;;
    mret tt);;
  (if truthy (with_ipv4_route args) then
     for_each (default [] (with_ipv4_route args)) (fun route =>
       print ("Adding IPv4 route: " +:+ route);;
       subprocess_run ["ip"; "route"; "add"; route; "dev"; tun_name args] true;;
       mret tt)
   else mret tt);;
  (if truthy (with_ipv6_route args) then
     for_each (default [] (with_ipv6_route args)) (fun route =>
       print ("Adding IPv6 route: " +:+ route);;
       subprocess_run ["ip"; "route"; "add"; route; "dev"; tun_name args] true;;
       mret tt)
   else mret tt);;
  (if String.eqb (ipv4_mode args) "nat" then
     print "Enabling IPv4 NAT";;
     subprocess_run ["iptables"; "-t"; "nat"; "-A"; "POSTROUTING";
                     "-o"; tun_name args; "-j"; "MASQUERADE"] true;;
     mret tt
   else if String.eqb (ipv4_mode args) "forward" then
     print "Enabling IPv4 forwarding";;
     subprocess_run ["sysctl"; "-w"; "net.ipv4.ip_forward=1"] true;;
     subprocess_run ["iptables"; "-A"; "FORWARD"; "-i"; tun_name args; "-j"; "ACCEPT"] true;;
     subprocess_run ["iptables"; "-A"; "FORWARD"; "-o"; tun_name args; "-j"; "ACCEPT"] true;;
     mret tt
   else mret tt);;
  (if String.eqb (ipv6_mode args) "nat" then
     print "Enabling IPv6 NAT";;
     subprocess_run ["ip6tables"; "-t"; "nat"; "-A"; "POSTROUTING";
                     "-o"; tun_name args; "-j"; "MASQUERADE"] true;;
     mret tt
   else if String.eqb (ipv6_mode args) "forward" then
     print "Enabling IPv6 forwarding";;
     subprocess_run ["sysctl"; "-w"; "net.ipv6.conf.all.forwarding=1"] true;;
     subprocess_run ["iptables"; "-A"; "FORWARD"; "-i"; tun_name args; "-j"; "ACCEPT"] true;;
     subprocess_run ["iptables"; "-A"; "FORWARD"; "-o"; tun_name args; "-j"; "ACCEPT"] true;;
     mret tt
   else mret tt).

Definition main (args : Namespace) : M Z :=
  local_host_ip ← look_up_ip_addr (local_hostname args);
  remote_host_ip ← look_up_ip_addr (remote_hostname args);
  print ("Local host IP address: " +:+ ipaddress.str local_host_ip +:+ nl
         +:+ "Remote host IP address: " +:+ ipaddress.str remote_host_ip);;
  recreate ← needs_interface_recreation local_host_ip remote_host_ip (tun_name args);
  (if recreate : bool then
     recreate_interface args local_host_ip remote_host_ip
   else
     print ("Interface " +:+ tun_name args +:+ " is up to healthy. Nothing to do."));;
  mret 0.

(** [sys.exit(main())]: an exception that reaches the top ends the process
    with status 1. *)
Definition exit_status (r : result Z) : Z :=
  match r with
  | Ok code => code
  | Raise _ => 1
  end.

(** ** What a run computes, in closed form *)

(** The URL [look_up_ip_addr] queries. *)
Definition doh_url (hostname : string) : string :=
  "https://cloudflare-dns.com/dns-query?name=" +:+ hostname +:+ "&type=A".

(** The value of [look_up_ip_addr hostname] as a function of the reply
    alone ([look_up_ip_addr_run] proves it is that). *)
Definition resolve (hostname : string) : result IPv4Address :=
  match http_get (doh_url hostname) with
  | None => Raise (ConnectionError (doh_url hostname))
  | Some response =>
      if (400 <=? status_code response) && (status_code response <? 600)
      then Raise (HTTPError (status_code response))
      else match body response with
           | None => Raise JSONDecodeError
           | Some j =>
               if negb (Status j =? 0)
               then Raise (RuntimeError
                             ("DNS lookup failed with status " +:+ str_int (Status j)))
               else match Answer j with
                    | None => Raise (KeyError "Answer")
                    | Some [] => Raise IndexError
                    | Some (first :: _) => ipaddress.of_str (data first)
                    end
           end
  end.

(** The text [save_tunnel_addrs] writes. *)
Definition record_text (local_ip remote_ip : IPv4Address) : string :=
  ipaddress.str local_ip +:+ nl +:+ ipaddress.str remote_ip.

(** The three kinds of statement [recreate_interface] is made of, and the
    list of them it runs ([recreate_interface_plan] proves it is that). *)
Inductive step : Type :=
| SPrint (line : string)
| SSave (path text : string)
| SRun (argv : list string) (check : bool).

Definition run_step (st : step) : M unit :=
  match st with
  | SPrint line => print line
  | SSave path text => open_w_write path text
  | SRun argv check => subprocess_run argv check;; mret tt
  end.

Definition run_steps (steps : list step) : M unit := for_each steps run_step.

(** A computation does what a list of steps does, whatever it returns. *)
Definition as_steps {A} (m : M A) (steps : list step) : Prop :=
  forall s, (m;; mret tt) s = run_steps steps s.

End Program.

(** The commands of the script, by name. *)
Definition cmd_probe (tun : string) : list string := ["ip"; "link"; "show"; "dev"; tun].
Definition cmd_del (tun : string) : list string := ["ip"; "link"; "del"; tun].
Definition cmd_add (tun : string) (local_ip remote_ip : IPv4Address) : list string :=
  ["ip"; "tunnel"; "add"; tun; "mode"; "sit"; "remote"; ipaddress.str remote_ip;
   "local"; ipaddress.str local_ip; "mode"; "any"; "ttl"; "255"].
Definition cmd_up (tun : string) : list string := ["ip"; "link"; "set"; "dev"; tun; "up"].
Definition cmd_addr (tun prefix : string) : list string :=
  ["ip"; "addr"; "add"; prefix; "dev"; tun].
Definition cmd_route (tun route : string) : list string :=
  ["ip"; "route"; "add"; route; "dev"; tun].
Definition cmd_masquerade (tables tun : string) : list string :=
  [tables; "-t"; "nat"; "-A"; "POSTROUTING"; "-o"; tun; "-j"; "MASQUERADE"].
Definition cmd_sysctl (setting : string) : list string := ["sysctl"; "-w"; setting].
Definition cmd_accept (tables direction tun : string) : list string :=
  [tables; "-A"; "FORWARD"; direction; tun; "-j"; "ACCEPT"].

Definition ipv4_mode_steps (args : Namespace) : list step :=
  if String.eqb (ipv4_mode args) "nat" then
    [SPrint "Enabling IPv4 NAT";
     SRun (cmd_masquerade "iptables" (tun_name args)) true]
  else if String.eqb (ipv4_mode args) "forward" then
    [SPrint "Enabling IPv4 forwarding";
     SRun (cmd_sysctl "net.ipv4.ip_forward=1") true;
     SRun (cmd_accept "iptables" "-i" (tun_name args)) true;
     SRun (cmd_accept "iptables" "-o" (tun_name args)) true]
  else [].

Definition ipv6_mode_steps (args : Namespace) : list step :=
  if String.eqb (ipv6_mode args) "nat" then
    [SPrint "Enabling IPv6 NAT";
     SRun (cmd_masquerade "ip6tables" (tun_name args)) true]
  else if String.eqb (ipv6_mode args) "forward" then
    [SPrint "Enabling IPv6 forwarding";
     SRun (cmd_sysctl "net.ipv6.conf.all.forwarding=1") true;
     SRun (cmd_accept "iptables" "-i" (tun_name args)) true;
     SRun (cmd_accept "iptables" "-o" (tun_name args)) true]
  else [].

Definition prefix_steps (tun prefix : string) : list step :=
  [SPrint ("Adding prefix " +:+ prefix +:+ " to interface");
   SRun (cmd_addr tun prefix) true].

Definition route_steps (family tun route : string) : list step :=
  [SPrint ("Adding " +:+ family +:+ " route: " +:+ route);
   SRun (cmd_route tun route) true].

(** The steps after the record is saved and the old interface deleted. *)
Definition apply_steps (args : Namespace) : list step :=
  flat_map (prefix_steps (tun_name args)) (with_prefix args)
  ++ flat_map (route_steps "IPv4" (tun_name args)) (default [] (with_ipv4_route args))
  ++ flat_map (route_steps "IPv6" (tun_name args)) (default [] (with_ipv6_route args)).

Definition plan (args : Namespace) (local_ip remote_ip : IPv4Address) : list step :=
  [SPrint ("(Re)creating interface: " +:+ tun_name args);
   SPrint ("Writing tunnel addresses to /tmp/autosit_" +:+ tun_name args);
   SSave (state_path (tun_name args)) (record_text local_ip remote_ip);
   SRun (cmd_del (tun_name args)) false;
   SPrint "Creating interface";
   SRun (cmd_add (tun_name args) local_ip remote_ip) true;
   SPrint "Bringing up interface";
   SRun (cmd_up (tun_name args)) true]
  ++ apply_steps args ++ ipv4_mode_steps args ++ ipv6_mode_steps args.

(** What [main] logs before the drift decision, once both names are
    resolved. *)
Definition preamble (args : Namespace) (local_ip remote_ip : IPv4Address) : list event :=
  [EvGet (doh_url (local_hostname args));
   EvGet (doh_url (remote_hostname args));
   EvPrint ("Local host IP address: " +:+ ipaddress.str local_ip +:+ nl
            +:+ "Remote host IP address: " +:+ ipaddress.str remote_ip)].

Definition healthy_line (args : Namespace) : string :=
  "Interface " +:+ tun_name args +:+ " is up to healthy. Nothing to do.".

(** The commands of a list of steps, and of a log. *)
Definition step_command (st : step) : option (list string) :=
  match st with
  | SRun argv _ => Some argv
  | _ => None
  end.

Definition event_run (e : event) : option (list string * Z) :=
  match e with
  | EvRun argv returncode => Some (argv, returncode)
  | _ => None
  end.

Definition runs (t : list event) : list (list string * Z) := omap event_run t.
Definition commands (t : list event) : list (list string) := (runs t).*1.

(** The commands that assign the prefixes and install the routes, in the
    order of the command line. *)
Definition apply_commands (args : Namespace) : list (list string) :=
  map (cmd_addr (tun_name args)) (with_prefix args)
  ++ map (cmd_route (tun_name args)) (default [] (with_ipv4_route args))
  ++ map (cmd_route (tun_name args)) (default [] (with_ipv6_route args)).

Definition mode_commands (args : Namespace) : list (list string) :=
  omap step_command (ipv4_mode_steps args ++ ipv6_mode_steps args).

(** Every command of a run that recreates the interface, in order. *)
Definition planned_commands (args : Namespace) (local_ip remote_ip : IPv4Address)
    : list (list string) :=
  [cmd_probe (tun_name args); cmd_del (tun_name args);
   cmd_add (tun_name args) local_ip remote_ip; cmd_up (tun_name args)]
  ++ apply_commands args ++ mode_commands args.

Definition is_save (st : step) : bool :=
  match st with
  | SSave _ _ => true
  | _ => false
  end.

(** The files after the writes of a log. *)
Definition apply_write (files : gmap string string) (e : event) : gmap string string :=
  match e with
  | EvWrite path text => <[path := text]> files
  | _ => files
  end.

Definition apply_writes (files : gmap string string) (t : list event)
    : gmap string string :=
  foldl apply_write files t.

(** What the log of a list of steps can be, and how the list ends: every
    step leaves its event, a step that fails is the last. *)
Inductive trace_of `{Env} : list step -> list event -> result unit -> Prop :=
| trace_done : trace_of [] [] (Ok tt)
| trace_print line steps t r :
    trace_of steps t r -> trace_of (SPrint line :: steps) (EvPrint line :: t) r
| trace_saved path text steps t r :
    writable path = true ->
    trace_of steps t r -> trace_of (SSave path text :: steps) (EvWrite path text :: t) r
| trace_save_failed path text steps :
    writable path = false ->
    trace_of (SSave path text :: steps) [] (Raise (PermissionError path))
| trace_ran argv check returncode steps t r :
    check = false \/ returncode = 0 ->
    trace_of steps t r ->
    trace_of (SRun argv check :: steps) (EvRun argv returncode :: t) r
| trace_run_failed argv returncode steps :
    returncode <> 0 ->
    trace_of (SRun argv true :: steps) [EvRun argv returncode]
             (Raise (CalledProcessError returncode argv)).

(** The characters [str(address)] is written with. *)
Definition address_char (c : ascii) : bool :=
  Ascii.eqb c "."%char || ipaddress.is_decimal_digit c.

(** ** A small host to run the script on *)

Module Demo.

(** The host has the tunnel interface or not, and refuses the commands
    listed in [refuses] with return code 2. *)
Record host : Type := { has_link : bool; refuses : list (list string) }.

Definition exec (w : host) (argv : list string) : Z * host :=
  if bool_decide (argv ∈ refuses w) then (2, w)
  else if bool_decide (take 4 argv = ["ip"; "link"; "show"; "dev"]) then
    (if has_link w then 0 else 1, w)
  else if bool_decide (take 3 argv = ["ip"; "link"; "del"]) then
    (if has_link w then 0 else 1, {| has_link := false; refuses := refuses w |})
  else if bool_decide (take 3 argv = ["ip"; "tunnel"; "add"]) then
    (if has_link w then 2 else 0, {| has_link := true; refuses := refuses w |})
  else (0, w).

Definition answer (address : string) : option Response :=
  Some {| status_code := 200;
          body := Some {| Status := 0; Answer := Some [ {| data := address |} ] |} |}.

Definition doh (url : string) : option Response :=
  if String.eqb url "https://cloudflare-dns.com/dns-query?name=home.example&type=A"
  then answer "10.0.0.1"
  else if String.eqb url "https://cloudflare-dns.com/dns-query?name=peer.example&type=A"
  then answer "10.0.0.2"
  else if String.eqb url "https://cloudflare-dns.com/dns-query?name=servfail.example&type=A"
  then Some {| status_code := 200; body := Some {| Status := 2; Answer := None |} |}
  else None.

(** The host reads a file in one piece and its locale is ASCII: a file
    with a byte outside ASCII does not decode. *)
Definition env : Env :=
  {| World := host; os_exec := exec; http_get := doh; writable := fun _ => true;
     decode := fun _ => ("", true) |}.

Definition args : Namespace :=
  {| local_hostname := "home.example"; remote_hostname := "peer.example";
     tun_name := "autosit";
     with_prefix := ["2001:db8:1::1/64"; "2001:db8:2::1/64"];
     with_ipv4_route := Some ["192.0.2.0/24"];
     with_ipv6_route := Some ["2001:db8:ff::/48"];
     ipv4_mode := "forward"; ipv6_mode := "forward" |}.

Definition local_ip : IPv4Address := ipaddress.mk_IPv4Address 167772161.
Definition remote_ip : IPv4Address := ipaddress.mk_IPv4Address 167772162.

Definition mk_store (files : gmap string string) (w : host) : @store env :=
  @Build_store env files w.

Definition fresh : @store env :=
  mk_store ∅ {| has_link := false; refuses := [] |}.

(** The tunnel is up, as after a run, and the state file is what
    [save_tunnel_addrs] wrote then. *)
Definition settled : @store env :=
  mk_store {[ "/tmp/autosit_autosit" := "10.0.0.1" +:+ nl +:+ "10.0.0.2" ]}
           {| has_link := true; refuses := [] |}.



(** The tunnel is up and the state file holds bytes that do not decode. *)
Definition undecodable : @store env :=
  mk_store {[ "/tmp/autosit_autosit" := String "255"%char ("10.0.0.1" +:+ nl +:+ "10.0.0.2") ]}
           {| has_link := true; refuses := [] |}.

(** No tunnel yet, and the host refuses the second prefix. *)
Definition stubborn : @store env :=
  mk_store ∅ {| has_link := false;
                refuses := [["ip"; "addr"; "add"; "2001:db8:2::1/64"; "dev"; "autosit"]] |}.

(** The same collaborators on a host where no file can be written. *)
Definition readonly_env : Env :=
  {| World := host; os_exec := exec; http_get := doh; writable := fun _ => false;
     decode := fun _ => ("", true) |}.

Definition readonly_fresh : @store readonly_env :=
  @Build_store readonly_env ∅ {| has_link := false; refuses := [] |}.

(** The command line with both packet handling modes set to "nat". *)
Definition nat_args : Namespace :=
  {| local_hostname := "home.example"; remote_hostname := "peer.example";
     tun_name := "autosit";
     with_prefix := ["2001:db8:1::1/64"];
     with_ipv4_route := None;
     with_ipv6_route := Some ["2001:db8:ff::/48"];
     ipv4_mode := "nat"; ipv6_mode := "nat" |}.

End Demo.

(** * Properties *)

Example str_10_0_0_1 : ipaddress.str Demo.local_ip = "10.0.0.1".
Proof. reflexivity. Qed.

Example of_str_10_0_0_1 : ipaddress.of_str "10.0.0.1" = Ok Demo.local_ip.
Proof. reflexivity. Qed.

Example of_str_leading_zero :
  ipaddress.of_str "010.0.0.1" = Raise (AddressValueError "010.0.0.1").
Proof. reflexivity. Qed.

Example of_str_trailing_newline :
  ipaddress.of_str ("10.0.0.1" +:+ nl) = Raise (AddressValueError ("10.0.0.1" +:+ nl)).
Proof. reflexivity. Qed.

(** ** Strings and addresses *)

Lemma all_chars_app p s1 s2 :
  all_chars p (s1 +:+ s2) = all_chars p s1 && all_chars p s2.
Proof.
  induction s1 as [|a s1 IH]; simpl; [done|].
  by rewrite IH, andb_assoc.
Qed.

Lemma all_chars_weaken (p q : ascii -> bool) s :
  (forall a, p a = true -> q a = true) ->
  all_chars p s = true -> all_chars q s = true.
Proof.
  intros Hpq. induction s as [|a s IH]; simpl; [done|].
  intros [Ha Hs]%andb_true_iff. rewrite (Hpq _ Ha). by apply IH.
Qed.

Lemma all_chars_contains p c s :
  all_chars p s = true -> p c = false -> contains c s = false.
Proof.
  intros Hs Hc. induction s as [|a s IH]; simpl in *; [done|].
  apply andb_true_iff in Hs as [Ha Hs]. rewrite (IH Hs), orb_false_r.
  destruct (Ascii.eqb_spec a c) as [->|]; [congruence|done].
Qed.

Lemma contains_app_r c s1 s2 :
  contains c s2 = true -> contains c (s1 +:+ s2) = true.
Proof.
  intros H2. induction s1 as [|a s1 IH]; simpl; [done|].
  by rewrite IH, orb_true_r.
Qed.

(** The pieces of [s.split(c)] hold every character of [s] but [c]. *)
Lemma split_all_chars c q s :
  Forall (fun piece => all_chars q piece = true) (split c s) ->
  all_chars (fun a => Ascii.eqb a c || q a) s = true.
Proof.
  induction s as [|a s IH]; simpl; [done|].
  destruct (Ascii.eqb a c) eqn:Hac; simpl.
  - intros Hall. apply IH. by inversion Hall.
  - destruct (split c s) as [|piece pieces] eqn:Hsplit.
    + intros Hall. inversion Hall as [|? ? Hhead _]; subst. simpl in Hhead.
      apply andb_true_iff in Hhead as [-> _]. simpl. by apply IH.
    + intros Hall. inversion Hall as [|? ? Hhead Htail]; subst. simpl in Hhead.
      apply andb_true_iff in Hhead as [-> Hpiece]. simpl.
      apply IH. by constructor.
Qed.

Lemma parse_octet_digits octet_str n :
  ipaddress._parse_octet octet_str = Some n ->
  all_chars ipaddress.is_decimal_digit octet_str = true.
Proof.
  unfold ipaddress._parse_octet. destruct octet_str as [|first rest]; [done|].
  destruct (all_chars ipaddress.is_decimal_digit (String first rest)); [done|].
  simpl. discriminate.
Qed.

(** [IPv4Address(s)] either succeeds or raises [AddressValueError] on [s]. *)
Lemma of_str_Raise s e :
  ipaddress.of_str s = Raise e -> e = AddressValueError s.
Proof.
  unfold ipaddress.of_str, ipaddress._ip_int_from_string.
  repeat case_match; congruence.
Qed.

(** An accepted address is written with decimal digits and dots only. *)
Lemma of_str_Ok_chars s a :
  ipaddress.of_str s = Ok a ->
  all_chars (fun c => Ascii.eqb c "."%char || ipaddress.is_decimal_digit c) s = true.
Proof.
  unfold ipaddress.of_str, ipaddress._ip_int_from_string.
  repeat case_match; try congruence. intros _.
  apply split_all_chars.
  match goal with Hm : mapM _ _ = Some _ |- _ => apply mapM_Some in Hm; rename Hm into Hmap end.
  eapply Forall2_Forall_l; [exact Hmap|].
  apply Forall_forall. intros n _ piece Hpiece. by eapply parse_octet_digits.
Qed.

(** So a string with a line feed in it is never an address. *)
Lemma of_str_newline s :
  contains LF s = true -> ipaddress.of_str s = Raise (AddressValueError s).
Proof.
  intros Hlf. destruct (ipaddress.of_str s) as [a|e] eqn:Hs.
  - apply of_str_Ok_chars in Hs.
    by rewrite (all_chars_contains _ LF _ Hs) in Hlf.
  - by rewrite (of_str_Raise _ _ Hs).
Qed.

(** [readline] returns a line that ends in a line feed, or has read the
    file to its end. *)
Lemma readline_newline_or_end buf :
  contains LF (readline buf).1 = true \/ (readline buf).2 = "".
Proof.
  induction buf as [|a buf IH]; simpl; [by right|].
  destruct (Ascii.eqb a LF) eqn:Ha; simpl.
  - left. by rewrite Ha.
  - destruct (readline buf) as [line rest]. simpl in *. rewrite Ha. simpl. exact IH.
Qed.

(** No file at all loads as a record: a first line that [readline]
    returns keeps its line feed, and when there is no line feed there is
    no second line; what fails is [IPv4Address], unless the text runs out
    before a line is found in a file that does not decode. *)
Lemma two_reads_fail fp :
  match fp_readline fp with
  | Raise e => e = UnicodeDecodeError /\ broken fp = true
  | Ok (line1, fp1) =>
      match ipaddress.of_str line1 with
      | Raise e => e = AddressValueError line1
      | Ok _ =>
          match fp_readline fp1 with
          | Raise e => False
          | Ok (line2, _) => ipaddress.of_str line2 = Raise (AddressValueError line2)
          end
      end
  end.
Proof.
  unfold fp_readline at 1.
  destruct (contains LF (readable fp)) eqn:Hlf; simpl.
  - destruct (readline_newline_or_end (readable fp)) as [Hline|Hend];
      destruct (readline (readable fp)) as [line1 rest] eqn:Hread; simpl in *.
    + by rewrite (of_str_newline _ Hline).
    + destruct (ipaddress.of_str line1) as [a|e] eqn:Hparse;
        [|by rewrite (of_str_Raise _ _ Hparse)].
      apply of_str_Ok_chars in Hparse.
      assert (Hno : contains LF line1 = false) by by eapply all_chars_contains.
      subst rest. clear Hparse. revert line1 Hread Hno Hlf.
      induction (readable fp) as [|c text IH]; intros line1 Hread Hno Hlf; [done|].
      simpl in *. destruct (Ascii.eqb c LF) eqn:Hc.
      * injection Hread as <-. simpl in Hno. by rewrite Hc in Hno.
      * destruct (readline text) as [line rest'] eqn:Htext.
        injection Hread as <- ->. simpl in Hno. rewrite Hc in Hno. simpl in *.
        by eapply IH.
  - destruct (broken fp); [done|]. simpl.
    destruct (readline (readable fp)) as [line1 rest] eqn:Hread.
    destruct (ipaddress.of_str line1) as [a|e] eqn:Hparse;
      [|by rewrite (of_str_Raise _ _ Hparse)].
    destruct (readline_newline_or_end (readable fp)) as [Hline|Hend];
      rewrite Hread in *; simpl in *.
    + by rewrite (of_str_newline _ Hline) in Hparse.
    + subst rest. reflexivity.
Qed.

Lemma octet_range x : 0 <= Z.land x 255 < 256.
Proof.
  change 255 with (Z.ones 8). rewrite Z.land_ones by lia.
  apply Z.mod_pos_bound. lia.
Qed.

Lemma str_int_octet_digits n :
  0 <= n < 256 -> all_chars ipaddress.is_decimal_digit (str_int n) = true.
Proof.
  intros Hn.
  assert (Hall : forallb (fun k => all_chars ipaddress.is_decimal_digit
                                     (str_int (Z.of_nat k))) (seq 0 256) = true)
    by (vm_compute; reflexivity).
  rewrite forallb_forall in Hall.
  specialize (Hall (Z.to_nat n)). rewrite Z2Nat.id in Hall by lia.
  apply Hall, in_seq. lia.
Qed.

(** [str(address)] is written with decimal digits and dots only. *)
Lemma str_chars a : all_chars address_char (ipaddress.str a) = true.
Proof.
  assert (Hoctet : forall x, all_chars address_char (str_int (Z.land x 255)) = true).
  { intros x. eapply all_chars_weaken; [|apply str_int_octet_digits, octet_range].
    intros c Hc. unfold address_char. by rewrite Hc, orb_true_r. }
  unfold ipaddress.str, ipaddress.to_bytes4_big.
  cbn [map join]. rewrite !all_chars_app, !Hoctet. reflexivity.
Qed.

Lemma universal_newlines_id s :
  contains CR s = false -> universal_newlines s = s.
Proof.
  induction s as [|a s IH]; [done|].
  simpl. intros [Ha Hs]%orb_false_iff. rewrite Ha. by rewrite IH.
Qed.

Lemma contains_app c s1 s2 :
  contains c (s1 +:+ s2) = contains c s1 || contains c s2.
Proof.
  induction s1 as [|a s1 IH]; simpl; [done|]. by rewrite IH, orb_assoc.
Qed.

Lemma readline_line line rest :
  contains LF line = false -> readline (line +:+ nl +:+ rest) = (line +:+ nl, rest).
Proof.
  induction line as [|a line IH]; [done|].
  simpl. intros [Ha Hline]%orb_false_iff. rewrite Ha. by rewrite (IH Hline).
Qed.

Lemma str_no_char c a : address_char c = false -> contains c (ipaddress.str a) = false.
Proof. intros Hc. eapply all_chars_contains; [apply str_chars|done]. Qed.

(** What was saved reads back as a first line that still ends in its
    line feed. *)
Lemma readline_record_text local_ip remote_ip :
  readline (universal_newlines (record_text local_ip remote_ip))
  = (ipaddress.str local_ip +:+ nl, ipaddress.str remote_ip).
Proof.
  unfold record_text. rewrite universal_newlines_id.
  - apply readline_line. by apply str_no_char.
  - rewrite !contains_app, !str_no_char by done. reflexivity.
Qed.

Lemma record_text_ascii local_ip remote_ip :
  all_chars is_ascii (record_text local_ip remote_ip) = true.
Proof.
  assert (Hstr : forall a, all_chars is_ascii (ipaddress.str a) = true).
  { intros a. eapply all_chars_weaken; [|apply str_chars].
    intros c. unfold address_char.
    intros [->%Ascii.eqb_eq|Hdigit]%orb_true_iff; [done|].
    unfold ipaddress.is_decimal_digit in Hdigit.
    apply andb_true_iff in Hdigit as [_ Hhi%Nat.leb_le].
    unfold is_ascii. apply Nat.ltb_lt. lia. }
  unfold record_text. by rewrite !all_chars_app, !Hstr.
Qed.

(** *** Printing and parsing agree when no line feed comes between *)

Lemma split_no_sep c s : contains c s = false -> split c s = [s].
Proof.
  induction s as [|a s IH]; [done|].
  simpl. intros [Ha Hs]%orb_false_iff. rewrite Ha. by rewrite (IH Hs).
Qed.

Lemma split_app_sep c s1 s2 :
  contains c s1 = false -> split c (s1 +:+ String c s2) = s1 :: split c s2.
Proof.
  induction s1 as [|a s1 IH]; simpl.
  - intros _. by rewrite Ascii.eqb_refl.
  - intros [Ha Hs]%orb_false_iff. rewrite Ha. by rewrite (IH Hs).
Qed.

Lemma parse_octet_str_int b :
  0 <= b < 256 -> ipaddress._parse_octet (str_int b) = Some b.
Proof.
  intros Hb.
  assert (Hall : forallb (fun k => bool_decide
                   (ipaddress._parse_octet (str_int (Z.of_nat k)) = Some (Z.of_nat k)))
                   (seq 0 256) = true)
    by (vm_compute; reflexivity).
  rewrite forallb_forall in Hall.
  specialize (Hall (Z.to_nat b)). rewrite Z2Nat.id in Hall by lia.
  eapply bool_decide_eq_true_1, Hall, in_seq. lia.
Qed.

Lemma str_int_no_dot b : 0 <= b < 256 -> contains "."%char (str_int b) = false.
Proof.
  intros Hb. eapply all_chars_contains; [by apply str_int_octet_digits|done].
Qed.

Lemma from_to_bytes ip_int :
  0 <= ip_int < 2 ^ 32 ->
  ipaddress.from_bytes_big (ipaddress.to_bytes4_big ip_int) = ip_int.
Proof.
  intros Hip. unfold ipaddress.from_bytes_big, ipaddress.to_bytes4_big.
  cbn [fold_left]. change 255 with (Z.ones 8).
  rewrite !Z.land_ones, !Z.shiftr_div_pow2 by lia.
  change (2 ^ 24) with 16777216. change (2 ^ 16) with 65536.
  change (2 ^ 8) with 256. change (2 ^ 32) with 4294967296 in Hip.
  Z.div_mod_to_equations. lia.
Qed.

(** [IPv4Address(str(a)) == a] for every address. *)
Lemma of_str_str a :
  0 <= ipaddress._ip a < 2 ^ 32 -> ipaddress.of_str (ipaddress.str a) = Ok a.
Proof.
  intros Hip. unfold ipaddress.of_str.
  rewrite (str_no_char "/"%char a) by done.
  unfold ipaddress._ip_int_from_string.
  pose proof (from_to_bytes _ Hip) as Hbytes.
  unfold ipaddress.str, ipaddress.to_bytes4_big in *. cbn [map join].
  set (b1 := Z.land (Z.shiftr (ipaddress._ip a) 24) 255) in *.
  set (b2 := Z.land (Z.shiftr (ipaddress._ip a) 16) 255) in *.
  set (b3 := Z.land (Z.shiftr (ipaddress._ip a) 8) 255) in *.
  set (b4 := Z.land (ipaddress._ip a) 255) in *.
  assert (H1 : 0 <= b1 < 256) by apply octet_range.
  assert (H2 : 0 <= b2 < 256) by apply octet_range.
  assert (H3 : 0 <= b3 < 256) by apply octet_range.
  assert (H4 : 0 <= b4 < 256) by apply octet_range.
  change "." with (String "."%char "").
  assert (Happ : forall s t, s +:+ String "."%char "" +:+ t = s +:+ String "."%char t).
  { reflexivity. }
  rewrite !Happ.
  rewrite !split_app_sep, split_no_sep by by apply str_int_no_dot.
  assert (Hne : String.eqb (str_int b1 +:+ String "."%char
                  (str_int b2 +:+ String "."%char
                     (str_int b3 +:+ String "."%char (str_int b4)))) "" = false).
  { destruct (str_int b1); reflexivity. }
  rewrite Hne. cbn [length Nat.eqb negb mapM].
  rewrite !parse_octet_str_int by done. simpl.
  rewrite Hbytes. by destruct a.
Qed.

(** ** Running the functions of the script *)

Section Runs.
Context `{Env}.

(** [look_up_ip_addr] asks once, changes nothing and returns [resolve]. *)
Lemma look_up_ip_addr_run hostname s :
  look_up_ip_addr hostname s = (resolve hostname, s, [EvGet (doh_url hostname)]).
Proof.
  unfold look_up_ip_addr, resolve, doh_url, requests_get, raise_for_status, json.
  unfold mbind, M_bind, mret, M_ret, raise, lift.
  destruct (http_get _) as [response|]; [|done].
  destruct (_ && _); [done|].
  destruct (body response) as [j|]; [|done].
  destruct (negb _); [done|].
  by destruct (Answer j) as [[|first rest]|].
Qed.

(** The load path: the file is opened; a missing file raises
    [FileNotFoundError], and a file that is there raises
    [UnicodeDecodeError] or [AddressValueError], the second whenever its
    bytes are all ASCII. *)
Lemma read_tunnel_addrs_run tun s :
  exists e,
    read_tunnel_addrs tun s = (Raise e, s, [EvOpenRead (state_path tun)])
    /\ (fs s !! state_path tun = None -> e = FileNotFoundError (state_path tun))
    /\ (forall content, fs s !! state_path tun = Some content ->
          e = UnicodeDecodeError \/ exists line, e = AddressValueError line)
    /\ (forall content, fs s !! state_path tun = Some content ->
          all_chars is_ascii content = true ->
          exists line, e = AddressValueError line).
Proof.
  unfold read_tunnel_addrs, open_r, mbind, M_bind, mret, M_ret, lift.
  destruct (fs s !! state_path tun) as [content|] eqn:Hfile.
  - pose proof (two_reads_fail (text_layer content)) as Hfail.
    assert (Hascii : all_chars is_ascii content = true ->
                     broken (text_layer content) = false).
    { unfold text_layer. by intros ->. }
    destruct (fp_readline (text_layer content)) as [[line1 fp1]|e1].
    + destruct (ipaddress.of_str line1) as [a1|e1].
      * destruct (fp_readline fp1) as [[line2 fp2]|e2]; [|done].
        rewrite Hfail. eexists. split_and!; [done|done|..];
          intros; simplify_eq; eauto.
      * subst e1. eexists. split_and!; [done|done|..];
          intros; simplify_eq; eauto.
    + destruct Hfail as [-> Hbroken]. eexists. split_and!; [done|done|..].
      * intros; by left.
      * intros ? [= <-] Hall. rewrite (Hascii Hall) in Hbroken. done.
  - eexists. split_and!; done.
Qed.

(** After a save, the load path stops at the first line. *)
Lemma read_saved_record tun local_ip remote_ip s :
  fs s !! state_path tun = Some (record_text local_ip remote_ip) ->
  read_tunnel_addrs tun s
  = (Raise (AddressValueError (ipaddress.str local_ip +:+ nl)), s,
     [EvOpenRead (state_path tun)]).
Proof.
  intros Hfile.
  assert (Hlf : contains LF (ipaddress.str local_ip +:+ nl) = true)
    by (apply contains_app_r; reflexivity).
  unfold read_tunnel_addrs, open_r, mbind, M_bind, mret, M_ret, lift.
  rewrite Hfile. unfold text_layer, fp_readline.
  rewrite record_text_ascii. cbn [readable broken andb].
  rewrite andb_false_r, readline_record_text.
  by rewrite (of_str_newline _ Hlf).
Qed.

Lemma save_tunnel_addrs_run local_ip remote_ip tun s :
  save_tunnel_addrs local_ip remote_ip tun s
  = if writable (state_path tun)
    then (Ok tt,
          {| fs := <[state_path tun := record_text local_ip remote_ip]> (fs s);
             os := os s |},
          [EvPrint ("Writing tunnel addresses to /tmp/autosit_" +:+ tun);
           EvWrite (state_path tun) (record_text local_ip remote_ip)])
    else (Raise (PermissionError (state_path tun)), s,
          [EvPrint ("Writing tunnel addresses to /tmp/autosit_" +:+ tun)]).
Proof.
  unfold save_tunnel_addrs, open_w_write, print, emit, mbind, M_bind, record_text.
  by destruct (writable _).
Qed.

(** The drift decision when the probe finds no interface: the answer is
    "recreate", and the state file is not opened. *)
Lemma decision_without_interface local_ip remote_ip tun s returncode w :
  os_exec (os s) (cmd_probe tun) = (returncode, w) ->
  returncode <> 0 ->
  needs_interface_recreation local_ip remote_ip tun s
  = (Ok true, {| fs := fs s; os := w |},
     [EvRun (cmd_probe tun) returncode;
      EvPrint ("Interface `" +:+ tun +:+ "` does not exist")]).
Proof.
  intros Hprobe Hrc.
  unfold needs_interface_recreation, subprocess_run, mbind, M_bind, mret, M_ret.
  unfold cmd_probe in Hprobe. rewrite Hprobe. simpl.
  apply Z.eqb_neq in Hrc. by rewrite Hrc.
Qed.

(** The drift decision when the probe finds the interface: the state
    file is opened and the load raises, whatever the file holds. *)
Lemma decision_with_interface local_ip remote_ip tun s w :
  os_exec (os s) (cmd_probe tun) = (0, w) ->
  exists e,
    needs_interface_recreation local_ip remote_ip tun s
    = (Raise e, {| fs := fs s; os := w |},
       [EvRun (cmd_probe tun) 0; EvOpenRead (state_path tun)])
    /\ (fs s !! state_path tun = None -> e = FileNotFoundError (state_path tun))
    /\ (forall content, fs s !! state_path tun = Some content ->
          e = UnicodeDecodeError \/ exists line, e = AddressValueError line)
    /\ (forall content, fs s !! state_path tun = Some content ->
          all_chars is_ascii content = true ->
          exists line, e = AddressValueError line)
    /\ (forall old_local_ip old_remote_ip,
          fs s !! state_path tun = Some (record_text old_local_ip old_remote_ip) ->
          e = AddressValueError (ipaddress.str old_local_ip +:+ nl)).
Proof.
  intros Hprobe.
  destruct (read_tunnel_addrs_run tun {| fs := fs s; os := w |})
    as (e & Hread & Hnone & Hsome & Hascii).
  exists e. split_and!; [|done|done|done|].
  - unfold needs_interface_recreation, subprocess_run.
    unfold mbind at 1, M_bind at 1.
    unfold cmd_probe in Hprobe. rewrite Hprobe. simpl.
    unfold mbind, M_bind. by rewrite Hread.
  - intros old_local_ip old_remote_ip Hfile.
    rewrite (read_saved_record tun old_local_ip old_remote_ip) in Hread by done.
    congruence.
Qed.

End Runs.

(** ** The reconfiguration as a list of steps *)

Section Steps.
Context `{Env}.

Lemma bind_run {A B} (m : M A) (k : A -> M B) s :
  (m ≫= k) s
  = match m s with
    | (Ok a, s1, t1) => let '(r, s2, t2) := k a s1 in (r, s2, t1 ++ t2)
    | (Raise e, s1, t1) => (Raise e, s1, t1)
    end.
Proof. reflexivity. Qed.

Lemma bind_ext_run {A B} (m : M A) (k k' : A -> M B) s :
  (forall a s', k a s' = k' a s') -> (m ≫= k) s = (m ≫= k') s.
Proof.
  intros Hk. rewrite !bind_run.
  destruct (m s) as [[[a|e] s1] t1]; [|done]. by rewrite Hk.
Qed.

Lemma bind_assoc_run {A B C} (m : M A) (f : A -> M B) (g : B -> M C) s :
  ((m ≫= f) ≫= g) s = (m ≫= fun a => f a ≫= g) s.
Proof.
  rewrite (bind_run (m ≫= f)), (bind_run m f), (bind_run m).
  destruct (m s) as [[[a|e] s1] t1]; [|done].
  rewrite (bind_run (f a)).
  destruct (f a s1) as [[[b|e] s2] t2]; [|done].
  destruct (g b s2) as [[r s3] t3]. by rewrite app_assoc.
Qed.

Lemma ret_run {A} (a : A) s : (mret a : M A) s = (Ok a, s, []).
Proof. reflexivity. Qed.

Lemma run_steps_app steps1 steps2 s :
  run_steps (steps1 ++ steps2) s = (run_steps steps1;; run_steps steps2) s.
Proof.
  revert s. induction steps1 as [|st steps1 IH]; intros s.
  - unfold run_steps. simpl. rewrite bind_run, ret_run.
    by destruct (for_each steps2 run_step s) as [[r s'] t].
  - unfold run_steps in *. simpl. rewrite bind_assoc_run.
    apply bind_ext_run. intros _ s'. apply IH.
Qed.

Lemma as_steps_unit (m : M unit) steps :
  as_steps m steps -> forall s, m s = run_steps steps s.
Proof.
  intros Hm s. rewrite <- Hm, bind_run.
  destruct (m s) as [[[[]|e] s1] t1]; [|done]. by rewrite ret_run, app_nil_r.
Qed.

Lemma as_steps_eq {A} (m : M A) steps steps' :
  as_steps m steps -> steps = steps' -> as_steps m steps'.
Proof. by intros ? <-. Qed.

Lemma as_steps_bind {A B} (m : M A) (k : M B) steps1 steps2 :
  as_steps m steps1 -> as_steps k steps2 -> as_steps (m;; k) (steps1 ++ steps2).
Proof.
  intros Hm Hk s. rewrite run_steps_app, bind_assoc_run.
  rewrite (bind_run (run_steps steps1)), <- (Hm s), !(bind_run m).
  destruct (m s) as [[[a|e] s1] t1]; [|done].
  rewrite ret_run, <- (Hk s1).
  destruct ((k;; mret tt) s1) as [[r s2] t2]. by rewrite app_nil_r.
Qed.

Lemma as_steps_ret {A} (a : A) : as_steps (mret a) [].
Proof. done. Qed.

Lemma as_steps_print line : as_steps (print line) [SPrint line].
Proof. done. Qed.

Lemma as_steps_run argv check : as_steps (subprocess_run argv check) [SRun argv check].
Proof.
  intros s. unfold run_steps. simpl.
  unfold mbind, M_bind, mret, M_ret, subprocess_run.
  destruct (os_exec (os s) argv) as [returncode w].
  by destruct (check && negb (returncode =? 0)).
Qed.

Lemma as_steps_write path text : as_steps (open_w_write path text) [SSave path text].
Proof.
  intros s. unfold run_steps. simpl.
  unfold mbind, M_bind, mret, M_ret, open_w_write. by destruct (writable path).
Qed.

Lemma as_steps_for_each {A} (xs : list A) (body : A -> M unit) (f : A -> list step) :
  (forall x, as_steps (body x) (f x)) ->
  as_steps (for_each xs body) (flat_map f xs).
Proof.
  intros Hbody. induction xs as [|x xs IH]; simpl.
  - apply as_steps_ret.
  - by apply as_steps_bind.
Qed.

(** [if routes: for route in routes: ...] *)
Lemma as_steps_routes routes (body : string -> M unit) (f : string -> list step) :
  (forall x, as_steps (body x) (f x)) ->
  as_steps (if truthy routes then for_each (default [] routes) body else mret tt)
           (flat_map f (default [] routes)).
Proof.
  intros Hbody. destruct routes as [[|route routes]|]; simpl.
  - apply as_steps_ret.
  - apply (as_steps_for_each (route :: routes)), Hbody.
  - apply as_steps_ret.
Qed.

Lemma as_steps_save local_ip remote_ip tun :
  as_steps (save_tunnel_addrs local_ip remote_ip tun)
           [SPrint ("Writing tunnel addresses to /tmp/autosit_" +:+ tun);
            SSave (state_path tun) (record_text local_ip remote_ip)].
Proof.
  unfold save_tunnel_addrs.
  apply (as_steps_bind _ _ [_] [_]); [apply as_steps_print|apply as_steps_write].
Qed.

Ltac steps :=
  repeat first
    [ apply as_steps_print | apply as_steps_run | apply as_steps_save
    | apply as_steps_ret | eapply as_steps_bind ].

(** [recreate_interface] runs the steps of [plan], in that order. *)
Lemma recreate_interface_plan args local_ip remote_ip s :
  recreate_interface args local_ip remote_ip s
  = run_steps (plan args local_ip remote_ip) s.
Proof.
  apply as_steps_unit. unfold recreate_interface.
  eapply as_steps_eq.
  - eapply as_steps_bind; [apply as_steps_print|].
    eapply as_steps_bind; [apply as_steps_save|].
    eapply as_steps_bind; [apply as_steps_run|].
    eapply as_steps_bind; [apply as_steps_print|].
    eapply as_steps_bind; [apply as_steps_run|].
    eapply as_steps_bind; [apply as_steps_print|].
    eapply as_steps_bind; [apply as_steps_run|].
    eapply as_steps_bind.
    { apply (as_steps_for_each _ _ (prefix_steps (tun_name args))).
      intros prefix. unfold prefix_steps.
      eapply as_steps_eq; [steps|reflexivity]. }
    eapply as_steps_bind.
    { apply (as_steps_routes _ _ (route_steps "IPv4" (tun_name args))).
      intros route. unfold route_steps.
      eapply as_steps_eq; [steps|reflexivity]. }
    eapply as_steps_bind.
    { apply (as_steps_routes _ _ (route_steps "IPv6" (tun_name args))).
      intros route. unfold route_steps.
      eapply as_steps_eq; [steps|reflexivity]. }
    eapply as_steps_bind.
    { instantiate (1 := ipv4_mode_steps args). unfold ipv4_mode_steps.
      destruct (String.eqb (ipv4_mode args) "nat");
        [|destruct (String.eqb (ipv4_mode args) "forward")];
        (eapply as_steps_eq; [steps|reflexivity]). }
    instantiate (1 := ipv6_mode_steps args). unfold ipv6_mode_steps.
    destruct (String.eqb (ipv6_mode args) "nat");
      [|destruct (String.eqb (ipv6_mode args) "forward")];
      (eapply as_steps_eq; [steps|reflexivity]).
  - unfold plan, apply_steps. simpl. by rewrite <- !app_assoc.
Qed.

(** The log of a list of steps is one of those [trace_of] allows. *)
Lemma run_steps_trace steps s r s' t :
  run_steps steps s = (r, s', t) -> trace_of steps t r.
Proof.
  revert s t. induction steps as [|st steps IH]; intros s t.
  - unfold run_steps. simpl. rewrite ret_run. intros [= <- <- <-]. constructor.
  - unfold run_steps in *. simpl. rewrite bind_run.
    destruct st as [line|path text|argv check]; simpl.
    + unfold print, emit.
      destruct (for_each steps run_step s) as [[r1 s1] t1] eqn:Hrest.
      intros [= <- <- <-]. constructor. by eapply IH.
    + unfold open_w_write. destruct (writable path) eqn:Hw.
      * destruct (for_each steps run_step _) as [[r1 s1] t1] eqn:Hrest.
        intros [= <- <- <-]. constructor; [done|]. by eapply IH.
      * intros [= <- <- <-]. by constructor.
    + rewrite bind_run. unfold subprocess_run.
      destruct (os_exec (os s) argv) as [returncode w].
      destruct (check && negb (returncode =? 0)) eqn:Hcheck.
      * intros [= <- <- <-].
        apply andb_true_iff in Hcheck as [-> Hrc].
        apply negb_true_iff, Z.eqb_neq in Hrc. by constructor.
      * rewrite ret_run.
        destruct (for_each steps run_step _) as [[r1 s1] t1] eqn:Hrest.
        intros [= <- <- <-]. simpl. constructor; [|by eapply IH].
        apply andb_false_iff in Hcheck as [->|Hrc]; [by left|right].
        by apply negb_false_iff, Z.eqb_eq in Hrc.
Qed.

End Steps.

(** ** A run of [main], case by case *)

Section Main.
Context `{Env}.

Lemma main_run args s :
  main args s
  = match resolve (local_hostname args) with
    | Raise e => (Raise e, s, [EvGet (doh_url (local_hostname args))])
    | Ok local_ip =>
        match resolve (remote_hostname args) with
        | Raise e => (Raise e, s, [EvGet (doh_url (local_hostname args));
                                   EvGet (doh_url (remote_hostname args))])
        | Ok remote_ip =>
            match needs_interface_recreation local_ip remote_ip (tun_name args) s with
            | (Raise e, s1, t1) => (Raise e, s1, preamble args local_ip remote_ip ++ t1)
            | (Ok true, s1, t1) =>
                match run_steps (plan args local_ip remote_ip) s1 with
                | (Ok _, s2, t2) =>
                    (Ok 0, s2, preamble args local_ip remote_ip ++ t1 ++ t2)
                | (Raise e, s2, t2) =>
                    (Raise e, s2, preamble args local_ip remote_ip ++ t1 ++ t2)
                end
            | (Ok false, s1, t1) =>
                (Ok 0, s1, preamble args local_ip remote_ip ++ t1
                           ++ [EvPrint (healthy_line args)])
            end
        end
    end.
Proof.
  unfold main. rewrite bind_run, look_up_ip_addr_run.
  destruct (resolve (local_hostname args)) as [local_ip|e]; [|done].
  rewrite bind_run, look_up_ip_addr_run.
  destruct (resolve (remote_hostname args)) as [remote_ip|e]; [|done].
  rewrite bind_run. unfold print at 1, emit. rewrite bind_run.
  destruct (needs_interface_recreation _ _ _ s) as [[[[]|e] s1] t1]; [| |done].
  - rewrite bind_run, recreate_interface_plan.
    destruct (run_steps _ s1) as [[[[]|e] s2] t2]; simpl; [|done].
    by rewrite app_nil_r.
  - rewrite bind_run. unfold print, emit. simpl. reflexivity.
Qed.

End Main.

(** ** The state record: saving and loading *)

(** C1.  Saving a pair of addresses for a tunnel and then reading the
    file back along the load path of the drift detector does NOT recover
    the pair: [readline] hands the first line to [IPv4Address] with its
    line feed, and the load raises [AddressValueError] on it.  This holds
    for every tunnel name and every pair of addresses. *)
Theorem saved_record_does_not_load `{Env} tun local_ip remote_ip s :
  writable (state_path tun) = true ->
  let saved := (save_tunnel_addrs local_ip remote_ip tun s).1.2 in
  (save_tunnel_addrs local_ip remote_ip tun s).1.1 = Ok tt
  /\ fs saved !! state_path tun = Some (record_text local_ip remote_ip)
  /\ read_tunnel_addrs tun saved
     = (Raise (AddressValueError (ipaddress.str local_ip +:+ nl)), saved,
        [EvOpenRead (state_path tun)]).
Proof.
  intros Hw. rewrite save_tunnel_addrs_run, Hw. simpl.
  split_and!; [done|apply lookup_insert_eq|].
  apply (read_saved_record tun local_ip remote_ip). simpl. apply lookup_insert_eq.
Qed.

Lemma saved_record_does_not_load_witness :
  let saved := (@save_tunnel_addrs Demo.env Demo.local_ip Demo.remote_ip
                  "autosit" Demo.fresh).1.2 in
  (@save_tunnel_addrs Demo.env Demo.local_ip Demo.remote_ip "autosit" Demo.fresh).1.1
  = Ok tt
  /\ fs saved !! state_path "autosit" = Some (record_text Demo.local_ip Demo.remote_ip)
  /\ @read_tunnel_addrs Demo.env "autosit" saved
     = (Raise (AddressValueError (ipaddress.str Demo.local_ip +:+ nl)), saved,
        [EvOpenRead (state_path "autosit")]).
Proof.
  apply (@saved_record_does_not_load Demo.env "autosit" Demo.local_ip Demo.remote_ip
           Demo.fresh).
  reflexivity.
Defined.

(** ** The drift decision *)

(** C6.  When the probe finds the interface and a state file is there,
    the drift decision returns neither "recreate" nor "healthy": whatever
    the file holds, the load raises.  It raises [AddressValueError]
    unless the file fails to decode first ([UnicodeDecodeError]), which a
    file of ASCII bytes never does; and on a record as
    [save_tunnel_addrs] writes it, matching the fresh addresses or not,
    it raises [AddressValueError] on the first line read, the local
    address with its line feed. *)
Theorem decision_raises_on_any_record `{Env} local_ip remote_ip tun s w content :
  os_exec (os s) (cmd_probe tun) = (0, w) ->
  fs s !! state_path tun = Some content ->
  exists e,
    needs_interface_recreation local_ip remote_ip tun s
    = (Raise e, {| fs := fs s; os := w |},
       [EvRun (cmd_probe tun) 0; EvOpenRead (state_path tun)])
    /\ (e = UnicodeDecodeError \/ exists line, e = AddressValueError line)
    /\ (all_chars is_ascii content = true -> exists line, e = AddressValueError line)
    /\ (forall old_local_ip old_remote_ip,
          content = record_text old_local_ip old_remote_ip ->
          e = AddressValueError (ipaddress.str old_local_ip +:+ nl)).
Proof.
  intros Hprobe Hfile.
  destruct (decision_with_interface local_ip remote_ip tun s w Hprobe)
    as (e & Hrun & _ & Hsome & Hascii & Hrecord).
  exists e. split_and!; [done|by eapply Hsome|by apply Hascii|].
  intros old_local_ip old_remote_ip ->. by eapply Hrecord.
Qed.

(** With no interface the decision is "recreate" and the state file is
    left unopened, also when it holds a record. *)
Example absence_short_circuits :
  @needs_interface_recreation Demo.env Demo.local_ip Demo.remote_ip "autosit"
    (Demo.mk_store (fs Demo.settled) {| Demo.has_link := false; Demo.refuses := [] |})
  = (Ok true,
     Demo.mk_store (fs Demo.settled) {| Demo.has_link := false; Demo.refuses := [] |},
     [EvRun (cmd_probe "autosit") 1; EvPrint "Interface `autosit` does not exist"]).
Proof. reflexivity. Qed.

Lemma decision_raises_on_any_record_witness :
  exists e,
    @needs_interface_recreation Demo.env Demo.local_ip
      (ipaddress.mk_IPv4Address 167772163) "autosit" Demo.settled
    = (Raise e, {| fs := fs Demo.settled; os := os Demo.settled |},
       [EvRun (cmd_probe "autosit") 0; EvOpenRead (state_path "autosit")])
    /\ (e = UnicodeDecodeError \/ exists line, e = AddressValueError line)
    /\ (all_chars is_ascii ("10.0.0.1" +:+ nl +:+ "10.0.0.2") = true ->
        exists line, e = AddressValueError line)
    /\ (forall old_local_ip old_remote_ip,
          "10.0.0.1" +:+ nl +:+ "10.0.0.2" = record_text old_local_ip old_remote_ip ->
          e = AddressValueError (ipaddress.str old_local_ip +:+ nl)).
Proof.
  apply (@decision_raises_on_any_record Demo.env Demo.local_ip
           (ipaddress.mk_IPv4Address 167772163) "autosit" Demo.settled
           (os Demo.settled) ("10.0.0.1" +:+ nl +:+ "10.0.0.2")).
  - reflexivity.
  - reflexivity.
Defined.

(** The two records of the claim, one matching the fresh pair and one
    with another remote address, and a file that does not decode. *)
Example decision_on_matching_record :
  (@needs_interface_recreation Demo.env Demo.local_ip Demo.remote_ip
     "autosit" Demo.settled).1.1
  = Raise (AddressValueError ("10.0.0.1" +:+ nl)).
Proof. reflexivity. Qed.

Example decision_on_differing_record :
  (@needs_interface_recreation Demo.env Demo.local_ip
     (ipaddress.mk_IPv4Address 167772163) "autosit" Demo.settled).1.1
  = Raise (AddressValueError ("10.0.0.1" +:+ nl)).
Proof. reflexivity. Qed.

Example decision_on_undecodable_file :
  (@needs_interface_recreation Demo.env Demo.local_ip Demo.remote_ip
     "autosit" Demo.undecodable).1.1
  = Raise UnicodeDecodeError.
Proof. reflexivity. Qed.

(** ** Runs that find the interface *)

(** C2.  A run that finds the interface up and the record the previous
    reconciliation saved, equal to the freshly resolved pair, issues no
    command but the probe and writes nothing; but it does not decide
    "healthy": the load of the record raises [AddressValueError], which
    ends the run. *)
Theorem second_run_raises `{Env} args s local_ip remote_ip w :
  resolve (local_hostname args) = Ok local_ip ->
  resolve (remote_hostname args) = Ok remote_ip ->
  os_exec (os s) (cmd_probe (tun_name args)) = (0, w) ->
  fs s !! state_path (tun_name args) = Some (record_text local_ip remote_ip) ->
  main args s
  = (Raise (AddressValueError (ipaddress.str local_ip +:+ nl)),
     {| fs := fs s; os := w |},
     preamble args local_ip remote_ip
     ++ [EvRun (cmd_probe (tun_name args)) 0; EvOpenRead (state_path (tun_name args))]).
Proof.
  intros Hlocal Hremote Hprobe Hfile.
  rewrite main_run, Hlocal, Hremote.
  destruct (decision_with_interface local_ip remote_ip (tun_name args) s w Hprobe)
    as (e & -> & _ & _ & _ & He).
  by rewrite (He _ _ Hfile).
Qed.

Lemma second_run_raises_witness :
  @main Demo.env Demo.args Demo.settled
  = (Raise (AddressValueError (ipaddress.str Demo.local_ip +:+ nl)),
     {| fs := fs Demo.settled; os := os Demo.settled |},
     preamble Demo.args Demo.local_ip Demo.remote_ip
     ++ [EvRun (cmd_probe "autosit") 0; EvOpenRead (state_path "autosit")]).
Proof.
  apply (@second_run_raises Demo.env Demo.args Demo.settled
           Demo.local_ip Demo.remote_ip (os Demo.settled)); reflexivity.
Defined.

(** The store [Demo.settled] is the one a first, successful run leaves. *)
Example first_run_settles :
  (@main Demo.env Demo.args Demo.fresh).1 = (Ok 0, Demo.settled).
Proof. vm_compute. reflexivity. Qed.




(** A state file that does not decode ends the run the same way, with
    [UnicodeDecodeError]. *)
Example undecodable_record_is_fatal :
  (@main Demo.env Demo.args Demo.undecodable).1.1 = Raise UnicodeDecodeError
  /\ exit_status (@main Demo.env Demo.args Demo.undecodable).1.1 = 1
  /\ commands (@main Demo.env Demo.args Demo.undecodable).2 = [cmd_probe "autosit"].
Proof. vm_compute. repeat split; reflexivity. Qed.

(** ** The resolver *)

Lemma resolve_Ok_iff `{Env} hostname a :
  resolve hostname = Ok a <->
  exists response j first rest,
    http_get (doh_url hostname) = Some response
    /\ ~ (400 <= status_code response < 600)
    /\ body response = Some j
    /\ Status j = 0
    /\ Answer j = Some (first :: rest)
    /\ ipaddress.of_str (data first) = Ok a.
Proof.
  unfold resolve. split.
  - destruct (http_get _) as [response|]; [|done].
    destruct (_ && _) eqn:Hstatus; [done|].
    destruct (body response) as [j|] eqn:Hbody; [|done].
    destruct (negb _) eqn:Hzero; [done|].
    destruct (Answer j) as [[|first rest]|] eqn:Hanswer; [done| |done].
    intros Hparse. exists response, j, first, rest.
    split_and!; try done.
    + apply andb_false_iff in Hstatus as [?%Z.leb_gt|?%Z.ltb_ge]; lia.
    + by apply negb_false_iff, Z.eqb_eq in Hzero.
  - intros (response & j & first & rest & -> & Hstatus & -> & Hzero & -> & Hparse).
    replace (_ && _) with false.
    + by rewrite Hzero.
    + symmetry. apply andb_false_iff.
      destruct (Z.leb_spec 400 (status_code response)); [right|by left].
      apply Z.ltb_ge. lia.
Qed.

(** C8.  [look_up_ip_addr] makes one query and touches nothing else; it
    returns an address exactly when the query is answered, the HTTP
    status is not an error, the body is JSON with [Status] 0 and at least
    one answer, and the first answer parses, and then the address is that
    of the first answer; and when either look-up fails, [main] ends with
    that exception having neither run a command nor opened or written a
    file. *)
Theorem resolution_contract `{Env} args s :
  (forall hostname,
      (look_up_ip_addr hostname s).1.2 = s
      /\ (look_up_ip_addr hostname s).2 = [EvGet (doh_url hostname)])
  /\ (forall hostname a,
        (look_up_ip_addr hostname s).1.1 = Ok a <->
        exists response j first rest,
          http_get (doh_url hostname) = Some response
          /\ ~ (400 <= status_code response < 600)
          /\ body response = Some j
          /\ Status j = 0
          /\ Answer j = Some (first :: rest)
          /\ ipaddress.of_str (data first) = Ok a)
  /\ (forall e,
        (look_up_ip_addr (local_hostname args) s).1.1 = Raise e
        \/ (is_Ok (look_up_ip_addr (local_hostname args) s).1.1 = true
            /\ (look_up_ip_addr (remote_hostname args) s).1.1 = Raise e) ->
        (main args s).1.1 = Raise e
        /\ (main args s).1.2 = s
        /\ Forall (fun ev => exists url, ev = EvGet url) (main args s).2).
Proof.
  split_and!.
  - intros hostname. by rewrite look_up_ip_addr_run.
  - intros hostname a. rewrite look_up_ip_addr_run. apply resolve_Ok_iff.
  - intros e. rewrite main_run, !look_up_ip_addr_run. simpl.
    intros [Hlocal|[Hlocal Hremote]].
    + rewrite Hlocal. simpl. split_and!; [done|done|]. repeat constructor. by eexists.
    + destruct (resolve (local_hostname args)); [|done].
      rewrite Hremote. simpl. split_and!; [done|done|].
      repeat constructor; by eexists.
Qed.

Lemma resolution_contract_witness :
  (@look_up_ip_addr Demo.env "home.example" Demo.fresh).1.1 = Ok Demo.local_ip
  /\ (@main Demo.env
        {| local_hostname := "home.example"; remote_hostname := "servfail.example";
           tun_name := "autosit"; with_prefix := ["2001:db8:1::1/64"];
           with_ipv4_route := None; with_ipv6_route := None;
           ipv4_mode := "forward"; ipv6_mode := "forward" |} Demo.fresh).1
     = (Raise (RuntimeError "DNS lookup failed with status 2"), Demo.fresh).
Proof.
  pose proof (@resolution_contract Demo.env
    {| local_hostname := "home.example"; remote_hostname := "servfail.example";
       tun_name := "autosit"; with_prefix := ["2001:db8:1::1/64"];
       with_ipv4_route := None; with_ipv6_route := None;
       ipv4_mode := "forward"; ipv6_mode := "forward" |} Demo.fresh)
    as (_ & Hok & Hfail).
  split.
  - apply Hok.
    exists {| status_code := 200;
              body := Some {| Status := 0; Answer := Some [ {| data := "10.0.0.1" |} ] |} |},
           {| Status := 0; Answer := Some [ {| data := "10.0.0.1" |} ] |},
           {| data := "10.0.0.1" |}, [].
    repeat split; simpl; lia.
  - destruct (Hfail (RuntimeError "DNS lookup failed with status 2"))
      as (Hr & Hs & _).
    + right. split; reflexivity.
    + apply injective_projections; assumption.
Defined.

(** ** Logs of a list of steps *)

Section Traces.
Context `{Env}.

Lemma commands_cons_run argv returncode t :
  commands (EvRun argv returncode :: t) = argv :: commands t.
Proof. reflexivity. Qed.

(** The commands logged are an initial part of the commands planned. *)
Lemma trace_commands_prefix steps t r :
  trace_of steps t r -> commands t `prefix_of` omap step_command steps.
Proof.
  induction 1; simpl; try done.
  - apply prefix_nil.
  - rewrite commands_cons_run. by apply prefix_cons.
  - apply prefix_cons, prefix_nil.
Qed.

(** A list of steps that ends well has run every command planned. *)
Lemma trace_Ok_commands steps t :
  trace_of steps t (Ok tt) -> commands t = omap step_command steps.
Proof.
  intros Htrace. remember (Ok tt) as r eqn:Hr.
  induction Htrace; simpl; try done; try (by apply IHHtrace).
  rewrite commands_cons_run. f_equal. by apply IHHtrace.
Qed.

(** A checked command that returns non-zero is the last event, and its
    exception is the result. *)
Lemma trace_failure_is_last steps t r pre argv returncode post :
  trace_of steps t r ->
  (forall check, SRun argv check ∈ steps -> check = true) ->
  t = pre ++ EvRun argv returncode :: post ->
  returncode <> 0 ->
  post = [] /\ r = Raise (CalledProcessError returncode argv).
Proof.
  intros Htrace. revert pre.
  induction Htrace as [|line steps t r _ IH|path text steps t r _ _ IH|path text steps _
                      |argv' check rc' steps t r Hok _ IH|argv' rc' steps Hrc'];
    intros pre Hchecked Ht Hrc.
  - by destruct pre.
  - destruct pre as [|e pre]; simplify_eq/=.
    eapply IH; [|done..]. intros c Hin. apply Hchecked. by right.
  - destruct pre as [|e pre]; simplify_eq/=.
    eapply IH; [|done..]. intros c Hin. apply Hchecked. by right.
  - by destruct pre.
  - destruct pre as [|e pre]; simplify_eq/=.
    + destruct Hok as [->|?]; [|done].
      by specialize (Hchecked false (list_elem_of_here _ _)).
    + eapply IH; [|done..]. intros c Hin. apply Hchecked. by right.
  - destruct pre as [|e pre]; simplify_eq/=; [done|].
    by destruct pre.
Qed.

(** The files after a list of steps are the files before with the
    writes of the log. *)
Lemma run_steps_fs steps s r s' t :
  run_steps steps s = (r, s', t) -> fs s' = apply_writes (fs s) t.
Proof.
  revert s t. induction steps as [|st steps IH]; intros s t.
  - unfold run_steps. simpl. rewrite ret_run. by intros [= <- <- <-].
  - unfold run_steps in *. simpl. rewrite bind_run.
    destruct st as [line|path text|argv check]; simpl.
    + unfold print, emit.
      destruct (for_each steps run_step s) as [[r1 s1] t1] eqn:Hrest.
      intros [= <- <- <-]. by apply (IH _ _ Hrest).
    + unfold open_w_write. destruct (writable path).
      * destruct (for_each steps run_step _) as [[r1 s1] t1] eqn:Hrest.
        intros [= <- <- <-]. by apply (IH _ _ Hrest).
      * by intros [= <- <- <-].
    + rewrite bind_run. unfold subprocess_run.
      destruct (os_exec (os s) argv) as [returncode w].
      destruct (check && negb (returncode =? 0)).
      * by intros [= <- <- <-].
      * rewrite ret_run.
        destruct (for_each steps run_step _) as [[r1 s1] t1] eqn:Hrest.
        intros [= <- <- <-]. by apply (IH _ _ Hrest).
Qed.

(** One step at a time. *)
Lemma run_steps_print line steps s :
  run_steps (SPrint line :: steps) s
  = let '(r, s', t) := run_steps steps s in (r, s', EvPrint line :: t).
Proof. reflexivity. Qed.

Lemma run_steps_save path text steps s :
  writable path = true ->
  run_steps (SSave path text :: steps) s
  = let '(r, s', t) := run_steps steps {| fs := <[path := text]> (fs s); os := os s |}
    in (r, s', EvWrite path text :: t).
Proof.
  intros Hw. unfold run_steps. simpl. rewrite bind_run.
  unfold open_w_write. by rewrite Hw.
Qed.

Lemma run_steps_run argv check steps s :
  run_steps (SRun argv check :: steps) s
  = let '(returncode, w) := os_exec (os s) argv in
    if check && negb (returncode =? 0)
    then (Raise (CalledProcessError returncode argv), {| fs := fs s; os := w |},
          [EvRun argv returncode])
    else let '(r, s', t) := run_steps steps {| fs := fs s; os := w |} in
         (r, s', EvRun argv returncode :: t).
Proof.
  unfold run_steps. simpl. rewrite !bind_run. unfold subprocess_run.
  destruct (os_exec (os s) argv) as [returncode w].
  by destruct (check && negb (returncode =? 0)).
Qed.

End Traces.

(** ** Runs that recreate the interface *)

Section Reconcile.
Context `{Env}.

Lemma trace_no_save steps t r files :
  trace_of steps t r ->
  Forall (fun st => is_save st = false) steps ->
  apply_writes files t = files.
Proof.
  induction 1; intros Hsteps; simpl; try done;
    inversion Hsteps; subst; try done; by apply IHtrace_of.
Qed.

Lemma plan_tail_no_save args local_ip remote_ip :
  Forall (fun st => is_save st = false)
    ([SRun (cmd_del (tun_name args)) false; SPrint "Creating interface";
      SRun (cmd_add (tun_name args) local_ip remote_ip) true;
      SPrint "Bringing up interface"; SRun (cmd_up (tun_name args)) true]
     ++ apply_steps args ++ ipv4_mode_steps args ++ ipv6_mode_steps args).
Proof.
  unfold apply_steps, ipv4_mode_steps, ipv6_mode_steps.
  rewrite !Forall_app, !Forall_flat_map.
  split_and!; try (repeat case_match; by repeat constructor);
    apply Forall_forall; intros x _; by repeat constructor.
Qed.

(** The drift decision answers "recreate" only when the probe fails. *)
Lemma decision_reconcile_inv local_ip remote_ip tun s :
  (needs_interface_recreation local_ip remote_ip tun s).1.1 = Ok true ->
  exists returncode w,
    returncode <> 0
    /\ os_exec (os s) (cmd_probe tun) = (returncode, w)
    /\ needs_interface_recreation local_ip remote_ip tun s
       = (Ok true, {| fs := fs s; os := w |},
          [EvRun (cmd_probe tun) returncode;
           EvPrint ("Interface `" +:+ tun +:+ "` does not exist")]).
Proof.
  intros Hdecision.
  destruct (os_exec (os s) (cmd_probe tun)) as [returncode w] eqn:Hprobe.
  destruct (decide (returncode = 0)) as [->|Hrc].
  - destruct (decision_with_interface local_ip remote_ip tun s w Hprobe)
      as (e & Hrun & _).
    by rewrite Hrun in Hdecision.
  - exists returncode, w. split_and!; [done|done|].
    by apply decision_without_interface.
Qed.

(** A run that resolves both names and decides to recreate: its result
    and log in terms of the log of the plan. *)
Lemma main_reconcile_run args s local_ip remote_ip :
  resolve (local_hostname args) = Ok local_ip ->
  resolve (remote_hostname args) = Ok remote_ip ->
  (needs_interface_recreation local_ip remote_ip (tun_name args) s).1.1 = Ok true ->
  exists returncode r t,
    returncode <> 0
    /\ trace_of (plan args local_ip remote_ip) t r
    /\ (main args s).1.1 = match r with Ok _ => Ok 0 | Raise e => Raise e end
    /\ (main args s).2
       = preamble args local_ip remote_ip
         ++ [EvRun (cmd_probe (tun_name args)) returncode;
             EvPrint ("Interface `" +:+ tun_name args +:+ "` does not exist")]
         ++ t
    /\ fs (main args s).1.2 = apply_writes (fs s) t.
Proof.
  intros Hlocal Hremote Hdecision.
  destruct (decision_reconcile_inv _ _ _ _ Hdecision)
    as (returncode & w & Hrc & Hprobe & Hrun).
  rewrite main_run, Hlocal, Hremote, Hrun.
  destruct (run_steps _ _) as [[r s2] t] eqn:Hsteps.
  exists returncode, r, t.
  pose proof (run_steps_trace _ _ _ _ _ Hsteps) as Htrace.
  pose proof (run_steps_fs _ _ _ _ _ Hsteps) as Hfs.
  by destruct r as [[]|e].
Qed.

End Reconcile.

(** ** Order of the reconfiguration *)

Section Order.
Context `{Env}.

Lemma plan_unfold args local_ip remote_ip :
  plan args local_ip remote_ip
  = SPrint ("(Re)creating interface: " +:+ tun_name args)
    :: SPrint ("Writing tunnel addresses to /tmp/autosit_" +:+ tun_name args)
    :: SSave (state_path (tun_name args)) (record_text local_ip remote_ip)
    :: ([SRun (cmd_del (tun_name args)) false; SPrint "Creating interface";
         SRun (cmd_add (tun_name args) local_ip remote_ip) true;
         SPrint "Bringing up interface"; SRun (cmd_up (tun_name args)) true]
        ++ apply_steps args ++ ipv4_mode_steps args ++ ipv6_mode_steps args).
Proof. reflexivity. Qed.

(** C5.  Whenever [main] issues a command other than the existence
    probe, both names were resolved and the record of the two fresh
    addresses was written to the state file, in one write, earlier in the
    log; and the state file holds that record when the run ends. *)
Theorem state_saved_before_mutation args s pre argv returncode post :
  (main args s).2 = pre ++ EvRun argv returncode :: post ->
  argv <> cmd_probe (tun_name args) ->
  exists local_ip remote_ip,
    resolve (local_hostname args) = Ok local_ip
    /\ resolve (remote_hostname args) = Ok remote_ip
    /\ EvWrite (state_path (tun_name args)) (record_text local_ip remote_ip) ∈ pre
    /\ fs (main args s).1.2 !! state_path (tun_name args)
       = Some (record_text local_ip remote_ip).
Proof.
  intros Hlog Hargv.
  destruct (resolve (local_hostname args)) as [local_ip|e] eqn:Hlocal; cycle 1.
  { rewrite main_run, Hlocal in Hlog. simpl in Hlog.
    do 2 (destruct pre as [|? pre]; simplify_eq/=). }
  destruct (resolve (remote_hostname args)) as [remote_ip|e] eqn:Hremote; cycle 1.
  { rewrite main_run, Hlocal, Hremote in Hlog. simpl in Hlog.
    do 3 (destruct pre as [|? pre]; simplify_eq/=). }
  exists local_ip, remote_ip. split; [done|]. split; [done|].
  destruct (os_exec (os s) (cmd_probe (tun_name args))) as [rc0 w] eqn:Hprobe.
  destruct (decide (rc0 = 0)) as [->|Hrc0].
  { destruct (decision_with_interface local_ip remote_ip _ s w Hprobe)
      as (e & Hrun & _).
    rewrite main_run, Hlocal, Hremote, Hrun in Hlog. simpl in Hlog.
    do 6 (destruct pre as [|? pre]; simplify_eq/=). }
  pose proof (decision_without_interface local_ip remote_ip _ s _ _ Hprobe Hrc0)
    as Hrun.
  destruct (main_reconcile_run args s local_ip remote_ip Hlocal Hremote)
    as (rc0' & r & t & _ & Htrace & _ & Hlog' & Hfs); [by rewrite Hrun|].
  rewrite Hlog' in Hlog. rewrite Hfs. clear Hlog' Hfs Hrun.
  rewrite plan_unfold in Htrace.
  inversion Htrace as [|? ? t1 ? Htrace1| | | |]; subst; clear Htrace.
  inversion Htrace1 as [|? ? t2 ? Htrace2| | | |]; subst; clear Htrace1.
  inversion Htrace2 as [| |? ? ? t3 ? Hw Htrace3|? ? ? Hw| |]; subst; clear Htrace2.
  - simpl in Hlog.
    do 8 (destruct pre as [|? pre]; simplify_eq/=).
    split; [by repeat constructor|].
    erewrite trace_no_save; [|done|apply plan_tail_no_save].
    apply lookup_insert_eq.
  - simpl in Hlog.
    do 8 (destruct pre as [|? pre]; simplify_eq/=).
Qed.

Lemma omap_prefix_steps tun prefixes :
  omap step_command (flat_map (prefix_steps tun) prefixes) = map (cmd_addr tun) prefixes.
Proof.
  induction prefixes as [|p ps IH]; [done|].
  change (flat_map (prefix_steps tun) (p :: ps))
    with (prefix_steps tun p ++ flat_map (prefix_steps tun) ps).
  by rewrite omap_app, IH.
Qed.

Lemma omap_route_steps family tun routes :
  omap step_command (flat_map (route_steps family tun) routes)
  = map (cmd_route tun) routes.
Proof.
  induction routes as [|p ps IH]; [done|].
  change (flat_map (route_steps family tun) (p :: ps))
    with (route_steps family tun p ++ flat_map (route_steps family tun) ps).
  by rewrite omap_app, IH.
Qed.

Lemma plan_commands args local_ip remote_ip :
  cmd_probe (tun_name args) :: omap step_command (plan args local_ip remote_ip)
  = planned_commands args local_ip remote_ip.
Proof.
  unfold plan, planned_commands, apply_steps, apply_commands, mode_commands.
  rewrite !omap_app, omap_prefix_steps, !omap_route_steps. simpl.
  by rewrite <- !app_assoc.
Qed.

(** Only the deletion of the old interface runs unchecked. *)
Lemma plan_checked args local_ip remote_ip argv check :
  SRun argv check ∈ plan args local_ip remote_ip ->
  argv <> cmd_del (tun_name args) -> check = true.
Proof.
  intros Hin Hargv.
  assert (Hall : Forall (fun st => match st with
                                   | SRun a false => a = cmd_del (tun_name args)
                                   | _ => True
                                   end) (plan args local_ip remote_ip)).
  { unfold plan, apply_steps, ipv4_mode_steps, ipv6_mode_steps.
    rewrite !Forall_app, !Forall_flat_map.
    split_and!; try (repeat case_match; by repeat constructor);
      apply Forall_forall; intros x _; by repeat constructor. }
  rewrite Forall_forall in Hall. specialize (Hall _ Hin). simpl in Hall.
  destruct check; [done|]. by destruct Hargv.
Qed.

(** A command other than the probe in the log of [main]: the run
    resolved both names, found no interface, and the command belongs to
    the log of the plan. *)
Lemma main_mutation_inv args s pre argv returncode post :
  (main args s).2 = pre ++ EvRun argv returncode :: post ->
  argv <> cmd_probe (tun_name args) ->
  exists local_ip remote_ip r t pre',
    resolve (local_hostname args) = Ok local_ip
    /\ resolve (remote_hostname args) = Ok remote_ip
    /\ trace_of (plan args local_ip remote_ip) t r
    /\ (main args s).1.1 = match r with Ok _ => Ok 0 | Raise e => Raise e end
    /\ t = pre' ++ EvRun argv returncode :: post.
Proof.
  intros Hlog Hargv.
  destruct (resolve (local_hostname args)) as [local_ip|e] eqn:Hlocal; cycle 1.
  { rewrite main_run, Hlocal in Hlog. simpl in Hlog.
    do 2 (destruct pre as [|? pre]; simplify_eq/=). }
  destruct (resolve (remote_hostname args)) as [remote_ip|e] eqn:Hremote; cycle 1.
  { rewrite main_run, Hlocal, Hremote in Hlog. simpl in Hlog.
    do 3 (destruct pre as [|? pre]; simplify_eq/=). }
  destruct (os_exec (os s) (cmd_probe (tun_name args))) as [rc0 w] eqn:Hprobe.
  destruct (decide (rc0 = 0)) as [->|Hrc0].
  { destruct (decision_with_interface local_ip remote_ip _ s w Hprobe)
      as (e & Hrun & _).
    rewrite main_run, Hlocal, Hremote, Hrun in Hlog. simpl in Hlog.
    do 6 (destruct pre as [|? pre]; simplify_eq/=). }
  pose proof (decision_without_interface local_ip remote_ip _ s _ _ Hprobe Hrc0)
    as Hrun.
  destruct (main_reconcile_run args s local_ip remote_ip Hlocal Hremote)
    as (rc0' & r & t & _ & Htrace & Hres & Hlog' & _); [by rewrite Hrun|].
  rewrite Hlog' in Hlog. simpl in Hlog.
  do 5 (destruct pre as [|? pre]; simplify_eq/=).
  by exists local_ip, remote_ip, r, (pre ++ EvRun argv returncode :: post), pre.
Qed.


End Order.

Lemma state_saved_before_mutation_witness :
  let t := (@main Demo.env Demo.args Demo.fresh).2 in
  exists local_ip remote_ip,
    @resolve Demo.env "home.example" = Ok local_ip
    /\ @resolve Demo.env "peer.example" = Ok remote_ip
    /\ EvWrite (state_path "autosit") (record_text local_ip remote_ip) ∈ take 8 t
    /\ fs (@main Demo.env Demo.args Demo.fresh).1.2 !! state_path "autosit"
       = Some (record_text local_ip remote_ip).
Proof.
  intros t.
  apply (@state_saved_before_mutation Demo.env Demo.args Demo.fresh
           (take 8 t) (cmd_del "autosit") 1 (drop 9 t)).
  - vm_compute. reflexivity.
  - discriminate.
Defined.




(** On the host that refuses the second prefix, the first is assigned,
    the second is tried, and nothing follows. *)
Example second_prefix_refused :
  (@main Demo.env Demo.args Demo.stubborn).1.1
  = Raise (CalledProcessError 2 (cmd_addr "autosit" "2001:db8:2::1/64"))
  /\ commands (@main Demo.env Demo.args Demo.stubborn).2
     = [cmd_probe "autosit"; cmd_del "autosit";
        cmd_add "autosit" Demo.local_ip Demo.remote_ip; cmd_up "autosit";
        cmd_addr "autosit" "2001:db8:1::1/64"; cmd_addr "autosit" "2001:db8:2::1/64"].
Proof. vm_compute. split; reflexivity. Qed.

(** ** Failures during the reconfiguration *)

(** C9.  In a run that recreates the interface and has saved the record,
    the deletion of the old interface is followed by the creation of the
    new one whatever the deletion returned; and any other command than
    the probe and the deletion that returns non-zero is the last event of
    the log: the run ends there with its [CalledProcessError] and exit
    status 1, nothing is undone and nothing else is tried. *)
Theorem teardown_tolerated_other_failures_fatal `{Env} args s local_ip remote_ip :
  resolve (local_hostname args) = Ok local_ip ->
  resolve (remote_hostname args) = Ok remote_ip ->
  (needs_interface_recreation local_ip remote_ip (tun_name args) s).1.1 = Ok true ->
  writable (state_path (tun_name args)) = true ->
  (exists rc_probe rc_del rc_add rest,
      runs (main args s).2
      = (cmd_probe (tun_name args), rc_probe)
        :: (cmd_del (tun_name args), rc_del)
        :: (cmd_add (tun_name args) local_ip remote_ip, rc_add) :: rest
      /\ rc_del = (os_exec (os_exec (os s) (cmd_probe (tun_name args))).2
                          (cmd_del (tun_name args))).1)
  /\ (forall pre argv returncode post,
        (main args s).2 = pre ++ EvRun argv returncode :: post ->
        argv <> cmd_probe (tun_name args) ->
        argv <> cmd_del (tun_name args) ->
        returncode <> 0 ->
        post = []
        /\ (main args s).1.1 = Raise (CalledProcessError returncode argv)
        /\ exit_status (main args s).1.1 = 1).
Proof.
  intros Hlocal Hremote Hdecision Hw. split.
  - destruct (decision_reconcile_inv _ _ _ _ Hdecision)
      as (rc0 & w & Hrc0 & Hprobe & Hrun).
    rewrite main_run, Hlocal, Hremote, Hrun, Hprobe, plan_unfold.
    rewrite !run_steps_print, run_steps_save by done.
    cbn [app]. rewrite run_steps_run. cbn [os snd fst].
    destruct (os_exec w (cmd_del (tun_name args))) as [rc_del w1].
    cbn [andb]. rewrite run_steps_print, run_steps_run. cbn [os].
    destruct (os_exec w1 _) as [rc_add w2].
    destruct (true && negb (rc_add =? 0)).
    + by exists rc0, rc_del, rc_add, [].
    + destruct (run_steps _ _) as [[[[]|e] s3] t3];
        by eexists rc0, rc_del, rc_add, _.
  - intros pre argv returncode post Hsplit Hprobe Hdel Hrc.
    destruct (main_mutation_inv args s pre argv returncode post Hsplit Hprobe)
      as (l' & r' & res & t' & pre' & Hl' & Hr' & Htrace' & Hres' & Ht').
    destruct (trace_failure_is_last _ _ _ pre' argv returncode post Htrace') as [-> ->];
      [|done|done|by rewrite Hres'].
    intros check Hin. by eapply plan_checked.
Qed.

Lemma teardown_tolerated_other_failures_fatal_witness :
  (exists rc_probe rc_del rc_add rest,
      runs (@main Demo.env Demo.args Demo.fresh).2
      = (cmd_probe "autosit", rc_probe)
        :: (cmd_del "autosit", rc_del)
        :: (cmd_add "autosit" Demo.local_ip Demo.remote_ip, rc_add) :: rest
      /\ rc_del = (@os_exec Demo.env
                     (@os_exec Demo.env (os Demo.fresh) (cmd_probe "autosit")).2
                     (cmd_del "autosit")).1)
  /\ (forall pre argv returncode post,
        (@main Demo.env Demo.args Demo.fresh).2
        = pre ++ EvRun argv returncode :: post ->
        argv <> cmd_probe "autosit" ->
        argv <> cmd_del "autosit" ->
        returncode <> 0 ->
        post = []
        /\ (@main Demo.env Demo.args Demo.fresh).1.1
           = Raise (CalledProcessError returncode argv)
        /\ exit_status (@main Demo.env Demo.args Demo.fresh).1.1 = 1).
Proof.
  apply (@teardown_tolerated_other_failures_fatal Demo.env Demo.args Demo.fresh
           Demo.local_ip Demo.remote_ip); reflexivity.
Defined.

(** On the fresh host the deletion returns 1 and the run goes on to a
    good end. *)
Example failed_deletion_ignored :
  (@os_exec Demo.env (os Demo.fresh) (cmd_del "autosit")).1 = 1
  /\ (@main Demo.env Demo.args Demo.fresh).1.1 = Ok 0
  /\ take 3 (runs (@main Demo.env Demo.args Demo.fresh).2)
     = [(cmd_probe "autosit", 1); (cmd_del "autosit", 1);
        (cmd_add "autosit" Demo.local_ip Demo.remote_ip, 0)].
Proof. vm_compute. repeat split; reflexivity. Qed.

(** ** Packet handling *)

Lemma reconcile_Ok_commands `{Env} args s local_ip remote_ip :
  resolve (local_hostname args) = Ok local_ip ->
  resolve (remote_hostname args) = Ok remote_ip ->
  (needs_interface_recreation local_ip remote_ip (tun_name args) s).1.1 = Ok true ->
  (main args s).1.1 = Ok 0 ->
  commands (main args s).2 = planned_commands args local_ip remote_ip.
Proof.
  intros Hlocal Hremote Hdecision.
  destruct (main_reconcile_run args s local_ip remote_ip Hlocal Hremote Hdecision)
    as (rc0 & r & t & _ & Htrace & Hres & Hlog & _).
  assert (Hcommands : commands (main args s).2 = cmd_probe (tun_name args) :: commands t)
    by (by rewrite Hlog).
  rewrite Hres, Hcommands, <- plan_commands. destruct r as [[]|e]; [|done].
  intros _. f_equal. by apply trace_Ok_commands.
Qed.

Lemma ipv6_forward_commands args :
  ipv6_mode args = "forward" ->
  omap step_command (ipv6_mode_steps args)
  = [cmd_sysctl "net.ipv6.conf.all.forwarding=1";
     cmd_accept "iptables" "-i" (tun_name args);
     cmd_accept "iptables" "-o" (tun_name args)].
Proof. unfold ipv6_mode_steps. intros ->. reflexivity. Qed.

Lemma ipv4_forward_commands args :
  ipv4_mode args = "forward" ->
  omap step_command (ipv4_mode_steps args)
  = [cmd_sysctl "net.ipv4.ip_forward=1";
     cmd_accept "iptables" "-i" (tun_name args);
     cmd_accept "iptables" "-o" (tun_name args)].
Proof. unfold ipv4_mode_steps. intros ->. reflexivity. Qed.

Lemma ipv4_mode_never_ip6tables args :
  Forall (fun argv => head argv <> Some "ip6tables")
         (omap step_command (ipv4_mode_steps args)).
Proof.
  unfold ipv4_mode_steps.
  destruct (String.eqb (ipv4_mode args) "nat");
    [|destruct (String.eqb (ipv4_mode args) "forward")];
    repeat constructor; intros [=].
Qed.

Lemma apply_commands_never_ip6tables args :
  Forall (fun argv => head argv <> Some "ip6tables") (apply_commands args).
Proof.
  unfold apply_commands. rewrite !Forall_app, !Forall_map.
  split_and!; apply Forall_forall; intros x _ [=].
Qed.

(** C4.  What the code does for the IPv6 mode "forward": a run that
    recreates the interface and ends well has set
    [net.ipv6.conf.all.forwarding=1] and then added the two FORWARD
    accept rules with [iptables], the IPv4 packet filter; no command of
    the run is an [ip6tables] command.  (With the IPv4 mode "forward" it
    sets [net.ipv4.ip_forward=1] and adds the same two [iptables]
    rules.) *)
Theorem ipv6_forward_installs_ipv4_rules `{Env} args s local_ip remote_ip :
  resolve (local_hostname args) = Ok local_ip ->
  resolve (remote_hostname args) = Ok remote_ip ->
  (needs_interface_recreation local_ip remote_ip (tun_name args) s).1.1 = Ok true ->
  ipv6_mode args = "forward" ->
  (main args s).1.1 = Ok 0 ->
  (exists before,
      commands (main args s).2
      = before ++ [cmd_sysctl "net.ipv6.conf.all.forwarding=1";
                   cmd_accept "iptables" "-i" (tun_name args);
                   cmd_accept "iptables" "-o" (tun_name args)])
  /\ Forall (fun argv => head argv <> Some "ip6tables") (commands (main args s).2)
  /\ (ipv4_mode args = "forward" ->
      exists before after,
        commands (main args s).2
        = before ++ [cmd_sysctl "net.ipv4.ip_forward=1";
                     cmd_accept "iptables" "-i" (tun_name args);
                     cmd_accept "iptables" "-o" (tun_name args)] ++ after).
Proof.
  intros Hlocal Hremote Hdecision Hmode Hres.
  rewrite (reconcile_Ok_commands args s local_ip remote_ip) by done.
  unfold planned_commands, mode_commands.
  rewrite omap_app, (ipv6_forward_commands args Hmode).
  split_and!.
  - eexists. rewrite !app_assoc. reflexivity.
  - rewrite !Forall_app.
    split_and!; [|apply apply_commands_never_ip6tables
                 |apply ipv4_mode_never_ip6tables|];
      repeat constructor; intros [=].
  - intros Hmode4. rewrite (ipv4_forward_commands args Hmode4).
    eexists _, _. rewrite (app_assoc _ (apply_commands args)). reflexivity.
Qed.

Lemma ipv6_forward_installs_ipv4_rules_witness :
  (exists before,
      commands (@main Demo.env Demo.args Demo.fresh).2
      = before ++ [cmd_sysctl "net.ipv6.conf.all.forwarding=1";
                   cmd_accept "iptables" "-i" "autosit";
                   cmd_accept "iptables" "-o" "autosit"])
  /\ Forall (fun argv => head argv <> Some "ip6tables")
            (commands (@main Demo.env Demo.args Demo.fresh).2)
  /\ (ipv4_mode Demo.args = "forward" ->
      exists before after,
        commands (@main Demo.env Demo.args Demo.fresh).2
        = before ++ [cmd_sysctl "net.ipv4.ip_forward=1";
                     cmd_accept "iptables" "-i" "autosit";
                     cmd_accept "iptables" "-o" "autosit"] ++ after).
Proof.
  apply (@ipv6_forward_installs_ipv4_rules Demo.env Demo.args Demo.fresh
           Demo.local_ip Demo.remote_ip); reflexivity.
Defined.

(** * Further properties *)

(** ** Addresses: parsing is strict and canonical *)

Lemma decimal_digit_char a :
  ipaddress.is_decimal_digit a = true ->
  exists d, (d < 10)%nat /\ a = ascii_of_nat (48 + d).
Proof.
  unfold ipaddress.is_decimal_digit.
  intros [Hlo%Nat.leb_le Hhi%Nat.leb_le]%andb_true_iff.
  exists (nat_of_ascii a - 48)%nat. split; [lia|].
  replace (48 + (nat_of_ascii a - 48))%nat with (nat_of_ascii a) by lia.
  by rewrite ascii_nat_embedding.
Qed.

Lemma parse_octet_length octet_str n :
  ipaddress._parse_octet octet_str = Some n ->
  (1 <= String.length octet_str <= 3)%nat.
Proof.
  unfold ipaddress._parse_octet. destruct octet_str as [|first rest]; [done|].
  destruct (negb _); [done|].
  destruct (3 <? String.length (String first rest))%nat eqn:Hlen; [done|].
  intros _. apply Nat.ltb_ge in Hlen. simpl in *. lia.
Qed.

(** An octet that parses is the decimal text of its value, which is at
    most 255: no sign, no space, no leading zero. *)
Lemma parse_octet_canonical octet_str n :
  ipaddress._parse_octet octet_str = Some n ->
  str_int n = octet_str /\ 0 <= n < 256.
Proof.
  intros Hparse.
  pose proof (parse_octet_digits _ _ Hparse) as Hdigits.
  pose proof (parse_octet_length _ _ Hparse) as Hlen.
  assert (Hcheck : forall o,
            match ipaddress._parse_octet o with
            | Some m => String.eqb (str_int m) o && (0 <=? m) && (m <? 256)
            | None => true
            end = true ->
            ipaddress._parse_octet o = Some n -> str_int n = o /\ 0 <= n < 256).
  { intros o Hok Ho. rewrite Ho in Hok.
    apply andb_true_iff in Hok as [[Heq Hlo]%andb_true_iff Hhi].
    apply String.eqb_eq in Heq. apply Z.leb_le in Hlo. apply Z.ltb_lt in Hhi.
    by split. }
  assert (H1 : forallb (fun d1 =>
            match ipaddress._parse_octet (String (ascii_of_nat (48 + d1)) "") with
            | Some m => String.eqb (str_int m) (String (ascii_of_nat (48 + d1)) "")
                        && (0 <=? m) && (m <? 256)
            | None => true
            end) (seq 0 10) = true) by (vm_compute; reflexivity).
  assert (H2 : forallb (fun d1 => forallb (fun d2 =>
            match ipaddress._parse_octet
                    (String (ascii_of_nat (48 + d1)) (String (ascii_of_nat (48 + d2)) ""))
            with
            | Some m => String.eqb (str_int m)
                          (String (ascii_of_nat (48 + d1))
                             (String (ascii_of_nat (48 + d2)) ""))
                        && (0 <=? m) && (m <? 256)
            | None => true
            end) (seq 0 10)) (seq 0 10) = true) by (vm_compute; reflexivity).
  assert (H3 : forallb (fun d1 => forallb (fun d2 => forallb (fun d3 =>
            match ipaddress._parse_octet
                    (String (ascii_of_nat (48 + d1))
                       (String (ascii_of_nat (48 + d2))
                          (String (ascii_of_nat (48 + d3)) "")))
            with
            | Some m => String.eqb (str_int m)
                          (String (ascii_of_nat (48 + d1))
                             (String (ascii_of_nat (48 + d2))
                                (String (ascii_of_nat (48 + d3)) "")))
                        && (0 <=? m) && (m <? 256)
            | None => true
            end) (seq 0 10)) (seq 0 10)) (seq 0 10) = true) by (vm_compute; reflexivity).
  rewrite forallb_forall in H1, H2, H3.
  destruct octet_str as [|a1 [|a2 [|a3 [|a4 rest]]]]; simpl in Hlen; try lia.
  - simpl in Hdigits. apply andb_true_iff in Hdigits as [Ha1 _].
    destruct (decimal_digit_char _ Ha1) as (d1 & Hd1 & ->).
    apply Hcheck; [|done]. apply (H1 d1), in_seq. lia.
  - simpl in Hdigits.
    apply andb_true_iff in Hdigits as [Ha1 [Ha2 _]%andb_true_iff].
    destruct (decimal_digit_char _ Ha1) as (d1 & Hd1 & ->).
    destruct (decimal_digit_char _ Ha2) as (d2 & Hd2 & ->).
    apply Hcheck; [|done].
    specialize (H2 d1). rewrite in_seq, forallb_forall in H2.
    apply H2; [lia|]. apply in_seq. lia.
  - simpl in Hdigits.
    apply andb_true_iff in Hdigits as [Ha1 [Ha2 [Ha3 _]%andb_true_iff]%andb_true_iff].
    destruct (decimal_digit_char _ Ha1) as (d1 & Hd1 & ->).
    destruct (decimal_digit_char _ Ha2) as (d2 & Hd2 & ->).
    destruct (decimal_digit_char _ Ha3) as (d3 & Hd3 & ->).
    apply Hcheck; [|done].
    specialize (H3 d1). rewrite in_seq, forallb_forall in H3.
    specialize (H3 ltac:(lia) d2). rewrite in_seq, forallb_forall in H3.
    apply H3; [lia|]. apply in_seq. lia.
Qed.

Lemma split_nonempty c s : split c s <> [].
Proof.
  destruct s as [|a s]; simpl; [done|].
  destruct (Ascii.eqb a c); [done|]. by destruct (split c s).
Qed.

(** [c.join(s.split(c)) == s] *)
Lemma join_split c s : join (String c "") (split c s) = s.
Proof.
  induction s as [|a s IH]; [done|].
  simpl. destruct (Ascii.eqb_spec a c) as [->|Hac].
  - pose proof (split_nonempty c s) as Hne.
    destruct (split c s) as [|piece pieces]; [done|].
    change (join (String c "") ("" :: piece :: pieces))
      with (String c (join (String c "") (piece :: pieces))).
    by rewrite IH.
  - pose proof (split_nonempty c s) as Hne.
    destruct (split c s) as [|piece pieces]; [done|].
    destruct pieces as [|piece' pieces].
    + simpl in *. by rewrite IH.
    + change (join (String c "") (String a piece :: piece' :: pieces))
        with (String a (join (String c "") (piece :: piece' :: pieces))).
      by rewrite IH.
Qed.

Lemma to_from_bytes b1 b2 b3 b4 :
  0 <= b1 < 256 -> 0 <= b2 < 256 -> 0 <= b3 < 256 -> 0 <= b4 < 256 ->
  ipaddress.to_bytes4_big (ipaddress.from_bytes_big [b1; b2; b3; b4]) = [b1; b2; b3; b4]
  /\ 0 <= ipaddress.from_bytes_big [b1; b2; b3; b4] < 2 ^ 32.
Proof.
  intros H1 H2 H3 H4. unfold ipaddress.from_bytes_big, ipaddress.to_bytes4_big.
  cbn [fold_left]. change 255 with (Z.ones 8).
  rewrite !Z.land_ones, !Z.shiftr_div_pow2 by lia.
  change (2 ^ 24) with 16777216. change (2 ^ 16) with 65536.
  change (2 ^ 8) with 256. change (2 ^ 32) with 4294967296.
  split; [|lia].
  repeat f_equal; Z.div_mod_to_equations; lia.
Qed.

(** An address that parses is a 32-bit address, and printing it gives the
    text that was parsed: [IPv4Address] accepts one spelling of each
    address only. *)
Lemma of_str_canonical s a :
  ipaddress.of_str s = Ok a ->
  ipaddress.str a = s /\ 0 <= ipaddress._ip a < 2 ^ 32.
Proof.
  unfold ipaddress.of_str, ipaddress._ip_int_from_string.
  destruct (contains "/"%char s); [done|].
  destruct (String.eqb s ""); [done|].
  destruct (negb _) eqn:Hlen; [done|].
  destruct (mapM _ _) as [bytes|] eqn:Hmap; [|done].
  intros [= <-]. apply negb_false_iff, Nat.eqb_eq in Hlen.
  apply mapM_Some in Hmap. pose proof (join_split "."%char s) as Hjoin.
  destruct (split "."%char s) as [|o1 [|o2 [|o3 [|o4 [|o5 os]]]]]; try done.
  apply Forall2_cons_inv_l in Hmap as (b1 & bytes1 & Hb1 & Hmap & ->).
  apply Forall2_cons_inv_l in Hmap as (b2 & bytes2 & Hb2 & Hmap & ->).
  apply Forall2_cons_inv_l in Hmap as (b3 & bytes3 & Hb3 & Hmap & ->).
  apply Forall2_cons_inv_l in Hmap as (b4 & bytes4 & Hb4 & Hmap & ->).
  apply Forall2_nil_inv_l in Hmap as ->.
  apply parse_octet_canonical in Hb1 as [<- Hr1], Hb2 as [<- Hr2],
    Hb3 as [<- Hr3], Hb4 as [<- Hr4].
  destruct (to_from_bytes b1 b2 b3 b4 Hr1 Hr2 Hr3 Hr4) as [Hbytes Hrange].
  split; [|done]. unfold ipaddress.str. cbn [ipaddress._ip].
  by rewrite Hbytes.
Qed.

(** ** Every run of [main], in four cases *)

Lemma run_steps_save_failed `{Env} path text steps s :
  writable path = false ->
  run_steps (SSave path text :: steps) s = (Raise (PermissionError path), s, []).
Proof.
  intros Hw. unfold run_steps. simpl. rewrite bind_run.
  unfold open_w_write. by rewrite Hw.
Qed.

(** A run stops at the first look-up that fails, or at the load of the
    state file when the probe finds the interface, or goes through the
    plan when it does not. *)
Lemma main_cases `{Env} args s :
  (exists e,
      resolve (local_hostname args) = Raise e
      /\ main args s = (Raise e, s, [EvGet (doh_url (local_hostname args))]))
  \/ (exists local_ip e,
        resolve (local_hostname args) = Ok local_ip
        /\ resolve (remote_hostname args) = Raise e
        /\ main args s = (Raise e, s, [EvGet (doh_url (local_hostname args));
                                       EvGet (doh_url (remote_hostname args))]))
  \/ (exists local_ip remote_ip w e,
        resolve (local_hostname args) = Ok local_ip
        /\ resolve (remote_hostname args) = Ok remote_ip
        /\ os_exec (os s) (cmd_probe (tun_name args)) = (0, w)
        /\ (fs s !! state_path (tun_name args) = Some (record_text local_ip remote_ip) ->
            e = AddressValueError (ipaddress.str local_ip +:+ nl))
        /\ main args s
           = (Raise e, {| fs := fs s; os := w |},
              preamble args local_ip remote_ip
              ++ [EvRun (cmd_probe (tun_name args)) 0;
                  EvOpenRead (state_path (tun_name args))]))
  \/ (exists local_ip remote_ip returncode w r s2 t,
        resolve (local_hostname args) = Ok local_ip
        /\ resolve (remote_hostname args) = Ok remote_ip
        /\ returncode <> 0
        /\ os_exec (os s) (cmd_probe (tun_name args)) = (returncode, w)
        /\ run_steps (plan args local_ip remote_ip) {| fs := fs s; os := w |} = (r, s2, t)
        /\ main args s
           = (match r with Ok _ => Ok 0 | Raise e => Raise e end, s2,
              preamble args local_ip remote_ip
              ++ [EvRun (cmd_probe (tun_name args)) returncode;
                  EvPrint ("Interface `" +:+ tun_name args +:+ "` does not exist")]
              ++ t)).
Proof.
  rewrite main_run.
  destruct (resolve (local_hostname args)) as [local_ip|e] eqn:Hlocal;
    [|left; by exists e].
  destruct (resolve (remote_hostname args)) as [remote_ip|e] eqn:Hremote;
    [|right; left; by exists local_ip, e].
  destruct (os_exec (os s) (cmd_probe (tun_name args))) as [returncode w] eqn:Hprobe.
  destruct (decide (returncode = 0)) as [->|Hrc].
  - destruct (decision_with_interface local_ip remote_ip _ s w Hprobe)
      as (e & -> & _ & _ & _ & He).
    right; right; left. exists local_ip, remote_ip, w, e.
    split_and!; try done. apply He.
  - rewrite (decision_without_interface local_ip remote_ip _ s _ _ Hprobe Hrc).
    destruct (run_steps _ _) as [[r s2] t] eqn:Hsteps.
    right; right; right. exists local_ip, remote_ip, returncode, w, r, s2, t.
    split_and!; try done. by destruct r as [[]|e].
Qed.


Lemma plan_trace_Ok_saved `{Env} args local_ip remote_ip t files :
  trace_of (plan args local_ip remote_ip) t (Ok tt) ->
  apply_writes files t
  = <[state_path (tun_name args) := record_text local_ip remote_ip]> files.
Proof.
  rewrite plan_unfold. intros Htrace.
  inversion Htrace as [|? ? t1 ? Htrace1| | | |]; subst; clear Htrace.
  inversion Htrace1 as [|? ? t2 ? Htrace2| | | |]; subst; clear Htrace1.
  inversion Htrace2 as [| |? ? ? t3 ? Hw Htrace3| | |]; subst; clear Htrace2.
  simpl. by erewrite trace_no_save; [|done|apply plan_tail_no_save].
Qed.

(** ** The resolver, further *)

(** X1.  An address [look_up_ip_addr] returns is a 32-bit address, and
    its text, as [main] passes it to [ip tunnel add] and writes it to the
    state file, is letter for letter the [data] of the first answer. *)
Theorem looked_up_address_is_answer_text `{Env} hostname s a :
  (look_up_ip_addr hostname s).1.1 = Ok a ->
  0 <= ipaddress._ip a < 2 ^ 32
  /\ exists response j first rest,
       http_get (doh_url hostname) = Some response
       /\ body response = Some j
       /\ Answer j = Some (first :: rest)
       /\ ipaddress.str a = data first.
Proof.
  rewrite look_up_ip_addr_run. simpl. intros Hresolve.
  apply resolve_Ok_iff in Hresolve
    as (response & j & first & rest & Hget & _ & Hbody & _ & Hanswer & Hparse).
  apply of_str_canonical in Hparse as [Hstr Hrange].
  split; [done|]. by exists response, j, first, rest.
Qed.

Lemma looked_up_address_is_answer_text_witness :
  0 <= ipaddress._ip Demo.local_ip < 2 ^ 32
  /\ exists response j first rest,
       @http_get Demo.env (doh_url "home.example") = Some response
       /\ body response = Some j
       /\ Answer j = Some (first :: rest)
       /\ ipaddress.str Demo.local_ip = data first.
Proof.
  apply (@looked_up_address_is_answer_text Demo.env "home.example" Demo.fresh
           Demo.local_ip).
  reflexivity.
Defined.

(** X2.  Each way [look_up_ip_addr] fails, with its exception, in the
    order the code checks: no reply at all; an HTTP status from 400 to
    599, whatever the body; a body that is not JSON; a [Status] other
    than 0, whatever the answers; no [Answer] key; an empty [Answer]; a
    first answer that is not an address, whatever the answers after
    it. *)
Theorem look_up_ip_addr_failures `{Env} hostname s :
  (http_get (doh_url hostname) = None ->
   (look_up_ip_addr hostname s).1.1 = Raise (ConnectionError (doh_url hostname)))
  /\ (forall response,
        http_get (doh_url hostname) = Some response ->
        (400 <= status_code response < 600 ->
         (look_up_ip_addr hostname s).1.1 = Raise (HTTPError (status_code response)))
        /\ (~ (400 <= status_code response < 600) ->
            (body response = None ->
             (look_up_ip_addr hostname s).1.1 = Raise JSONDecodeError)
            /\ (forall j, body response = Some j ->
                  (Status j <> 0 ->
                   (look_up_ip_addr hostname s).1.1
                   = Raise (RuntimeError ("DNS lookup failed with status "
                                          +:+ str_int (Status j))))
                  /\ (Status j = 0 ->
                      (Answer j = None ->
                       (look_up_ip_addr hostname s).1.1 = Raise (KeyError "Answer"))
                      /\ (Answer j = Some [] ->
                          (look_up_ip_addr hostname s).1.1 = Raise IndexError)
                      /\ (forall first rest,
                            Answer j = Some (first :: rest) ->
                            is_Ok (ipaddress.of_str (data first)) = false ->
                            (look_up_ip_addr hostname s).1.1
                            = Raise (AddressValueError (data first))))))).
Proof.
  rewrite look_up_ip_addr_run. unfold resolve. simpl. split.
  - by intros ->.
  - intros response ->. split.
    + intros Hstatus.
      replace (_ && _) with true; [done|].
      symmetry. apply andb_true_iff. split; [apply Z.leb_le|apply Z.ltb_lt]; lia.
    + intros Hstatus.
      replace (_ && _) with false; cycle 1.
      { symmetry. apply andb_false_iff.
        destruct (Z.leb_spec 400 (status_code response)); [right|by left].
        apply Z.ltb_ge. lia. }
      split; [by intros ->|]. intros j ->. split.
      * intros Hzero. apply Z.eqb_neq in Hzero. by rewrite Hzero.
      * intros ->. simpl. split_and!; [by intros ->|by intros ->|].
        intros first rest -> Hbad.
        destruct (ipaddress.of_str (data first)) as [a|e] eqn:Hparse; [done|].
        by rewrite (of_str_Raise _ _ Hparse).
Qed.

Lemma look_up_ip_addr_failures_witness :
  (@look_up_ip_addr Demo.env "servfail.example" Demo.fresh).1.1
  = Raise (RuntimeError "DNS lookup failed with status 2")
  /\ (@look_up_ip_addr Demo.env "nowhere.example" Demo.fresh).1.1
     = Raise (ConnectionError (doh_url "nowhere.example")).
Proof.
  split.
  - destruct (@look_up_ip_addr_failures Demo.env "servfail.example" Demo.fresh)
      as [_ Hreply].
    destruct (Hreply {| status_code := 200;
                        body := Some {| Status := 2; Answer := None |} |})
      as [_ Hbody]; [reflexivity|].
    destruct Hbody as [_ Hjson]; [simpl; lia|].
    destruct (Hjson {| Status := 2; Answer := None |}) as [Hstatus _]; [reflexivity|].
    apply Hstatus. discriminate.
  - destruct (@look_up_ip_addr_failures Demo.env "nowhere.example" Demo.fresh)
      as [Hnone _].
    apply Hnone. reflexivity.
Defined.

(** X3.  When the look-up of the local name fails, [main] ends with its
    exception after that one query: the remote name is not looked up. *)
Theorem main_stops_at_first_failed_lookup `{Env} args s e :
  (look_up_ip_addr (local_hostname args) s).1.1 = Raise e ->
  main args s = (Raise e, s, [EvGet (doh_url (local_hostname args))]).
Proof.
  rewrite look_up_ip_addr_run. simpl. intros Hlocal.
  by rewrite main_run, Hlocal.
Qed.

Lemma main_stops_at_first_failed_lookup_witness :
  @main Demo.env
    {| local_hostname := "servfail.example"; remote_hostname := "peer.example";
       tun_name := "autosit"; with_prefix := ["2001:db8:1::1/64"];
       with_ipv4_route := None; with_ipv6_route := None;
       ipv4_mode := "forward"; ipv6_mode := "forward" |} Demo.fresh
  = (Raise (RuntimeError "DNS lookup failed with status 2"), Demo.fresh,
     [EvGet (doh_url "servfail.example")]).
Proof.
  apply (@main_stops_at_first_failed_lookup Demo.env
    {| local_hostname := "servfail.example"; remote_hostname := "peer.example";
       tun_name := "autosit"; with_prefix := ["2001:db8:1::1/64"];
       with_ipv4_route := None; with_ipv6_route := None;
       ipv4_mode := "forward"; ipv6_mode := "forward" |} Demo.fresh).
  reflexivity.
Defined.

(** ** The state record, further *)

(** X4.  The text [save_tunnel_addrs] writes can be decoded: cut at its
    line feed it gives two pieces, which parse to the local and to the
    remote address saved; so two different pairs of addresses never give
    the same text. *)
Theorem record_text_decodes local_ip remote_ip :
  0 <= ipaddress._ip local_ip < 2 ^ 32 ->
  0 <= ipaddress._ip remote_ip < 2 ^ 32 ->
  map ipaddress.of_str (split LF (record_text local_ip remote_ip))
  = [Ok local_ip; Ok remote_ip]
  /\ (forall local_ip' remote_ip',
        0 <= ipaddress._ip local_ip' < 2 ^ 32 ->
        0 <= ipaddress._ip remote_ip' < 2 ^ 32 ->
        record_text local_ip remote_ip = record_text local_ip' remote_ip' ->
        local_ip = local_ip' /\ remote_ip = remote_ip').
Proof.
  assert (Hdecode : forall l r,
            0 <= ipaddress._ip l < 2 ^ 32 -> 0 <= ipaddress._ip r < 2 ^ 32 ->
            map ipaddress.of_str (split LF (record_text l r)) = [Ok l; Ok r]).
  { intros l r Hl Hr. unfold record_text.
    change (ipaddress.str l +:+ nl +:+ ipaddress.str r)
      with (ipaddress.str l +:+ String LF (ipaddress.str r)).
    rewrite split_app_sep, split_no_sep by by apply str_no_char.
    simpl. by rewrite !of_str_str. }
  intros Hlocal Hremote. split; [by apply Hdecode|].
  intros local_ip' remote_ip' Hlocal' Hremote' Htext.
  pose proof (Hdecode local_ip remote_ip Hlocal Hremote) as H1.
  rewrite Htext, Hdecode in H1 by done. by simplify_eq.
Qed.

Lemma record_text_decodes_witness :
  map ipaddress.of_str (split LF (record_text Demo.local_ip Demo.remote_ip))
  = [Ok Demo.local_ip; Ok Demo.remote_ip]
  /\ (forall local_ip' remote_ip',
        0 <= ipaddress._ip local_ip' < 2 ^ 32 ->
        0 <= ipaddress._ip remote_ip' < 2 ^ 32 ->
        record_text Demo.local_ip Demo.remote_ip = record_text local_ip' remote_ip' ->
        Demo.local_ip = local_ip' /\ Demo.remote_ip = remote_ip').
Proof.
  apply (record_text_decodes Demo.local_ip Demo.remote_ip); simpl; lia.
Defined.

(** ** The drift decision, further *)

(** X5.  The drift decision does not depend on the addresses it is
    given: for the same tunnel and store it ends the same way whatever
    the freshly resolved pair is. *)
Theorem decision_ignores_addresses `{Env} local_ip remote_ip local_ip' remote_ip' tun s :
  needs_interface_recreation local_ip remote_ip tun s
  = needs_interface_recreation local_ip' remote_ip' tun s.
Proof.
  unfold needs_interface_recreation. rewrite !bind_run.
  destruct (subprocess_run _ _ s) as [[[returncode|e] s1] t1]; [|done].
  destruct (negb _); [done|]. rewrite !bind_run.
  by destruct (read_tunnel_addrs_run tun s1) as (e & -> & _).
Qed.

(** X6.  Whatever it answers, the drift decision runs one command, the
    probe, leaves the files as they are and the operating system as the
    probe left it, and opens the state file exactly when the probe
    returned 0. *)
Theorem decision_effects `{Env} local_ip remote_ip tun s :
  commands (needs_interface_recreation local_ip remote_ip tun s).2 = [cmd_probe tun]
  /\ fs (needs_interface_recreation local_ip remote_ip tun s).1.2 = fs s
  /\ os (needs_interface_recreation local_ip remote_ip tun s).1.2
     = (os_exec (os s) (cmd_probe tun)).2
  /\ (EvOpenRead (state_path tun)
        ∈ (needs_interface_recreation local_ip remote_ip tun s).2
      <-> (os_exec (os s) (cmd_probe tun)).1 = 0)
  /\ Forall (fun ev => forall path text, ev <> EvWrite path text)
            (needs_interface_recreation local_ip remote_ip tun s).2.
Proof.
  destruct (os_exec (os s) (cmd_probe tun)) as [returncode w] eqn:Hprobe.
  destruct (decide (returncode = 0)) as [->|Hrc].
  - destruct (decision_with_interface local_ip remote_ip tun s w Hprobe)
      as (e & -> & _).
    simpl. split_and!; try done.
    + split; [done|]. intros _. by repeat constructor.
    + by repeat constructor.
  - rewrite (decision_without_interface local_ip remote_ip tun s _ _ Hprobe Hrc).
    simpl. split_and!; try done.
    + split; [|done]. intros Hin.
      apply elem_of_cons in Hin as [?|Hin]; [done|].
      apply elem_of_cons in Hin as [?|Hin]; [done|].
      by apply not_elem_of_nil in Hin.
    + by repeat constructor.
Qed.

(** ** Whole runs, further *)


(** A run that returns has gone through the whole plan. *)
Lemma main_Ok_inv `{Env} args s code :
  (main args s).1.1 = Ok code ->
  code = 0
  /\ exists local_ip remote_ip,
       resolve (local_hostname args) = Ok local_ip
       /\ resolve (remote_hostname args) = Ok remote_ip
       /\ (os_exec (os s) (cmd_probe (tun_name args))).1 <> 0
       /\ commands (main args s).2 = planned_commands args local_ip remote_ip
       /\ fs (main args s).1.2
          = <[state_path (tun_name args) := record_text local_ip remote_ip]> (fs s).
Proof.
  destruct (main_cases args s)
    as [(e & _ & ->)|[(l & e & _ & _ & ->)|[(l & r & w & e & _ & _ & _ & _ & ->)
       |(l & r & rc & w & res & s2 & t & Hl & Hr & Hrc & Hprobe & Hsteps & ->)]]];
    try done.
  destruct res as [[]|e]; [|done]. cbn [fst snd]. intros [= <-]. split; [done|].
  exists l, r. split_and!; try done.
  - by rewrite Hprobe.
  - rewrite <- plan_commands.
    assert (Hc : forall pre, commands (preamble args l r
                   ++ [EvRun (cmd_probe (tun_name args)) rc; EvPrint pre] ++ t)
                 = cmd_probe (tun_name args) :: commands t) by reflexivity.
    rewrite Hc. f_equal. apply trace_Ok_commands. by eapply run_steps_trace.
  - rewrite (run_steps_fs _ _ _ _ _ Hsteps). cbn [fs].
    apply plan_trace_Ok_saved. by eapply run_steps_trace.
Qed.

(** X7.  [main] returns only 0, and only after recreating the interface:
    both names resolved, the probe found no interface, every command of
    the plan was run, and the state file holds the record of the two
    fresh addresses.  No run returns with the interface found in
    place. *)
Theorem main_Ok_means_recreated `{Env} args s code :
  (main args s).1.1 = Ok code ->
  code = 0
  /\ exists local_ip remote_ip,
       resolve (local_hostname args) = Ok local_ip
       /\ resolve (remote_hostname args) = Ok remote_ip
       /\ (os_exec (os s) (cmd_probe (tun_name args))).1 <> 0
       /\ commands (main args s).2 = planned_commands args local_ip remote_ip
       /\ fs (main args s).1.2 !! state_path (tun_name args)
          = Some (record_text local_ip remote_ip).
Proof.
  intros Hok. destruct (main_Ok_inv args s code Hok)
    as (-> & l & r & Hl & Hr & Hprobe & Hcommands & Hfs).
  split; [done|]. exists l, r. split_and!; try done.
  rewrite Hfs. apply lookup_insert_eq.
Qed.

Lemma main_Ok_means_recreated_witness :
  0 = 0
  /\ exists local_ip remote_ip,
       @resolve Demo.env "home.example" = Ok local_ip
       /\ @resolve Demo.env "peer.example" = Ok remote_ip
       /\ (@os_exec Demo.env (os Demo.fresh) (cmd_probe "autosit")).1 <> 0
       /\ commands (@main Demo.env Demo.args Demo.fresh).2
          = planned_commands Demo.args local_ip remote_ip
       /\ fs (@main Demo.env Demo.args Demo.fresh).1.2 !! state_path "autosit"
          = Some (record_text local_ip remote_ip).
Proof.
  apply (@main_Ok_means_recreated Demo.env Demo.args Demo.fresh 0).
  vm_compute. reflexivity.
Defined.

(** X8.  After a run that returned, the next run with the same command
    line that finds the interface, whatever else happened to the host in
    between, does not return: it stops at the load of the record the
    first run saved, having issued the probe only. *)
Theorem run_after_success_raises `{Env} args s code w :
  (main args s).1.1 = Ok code ->
  (os_exec w (cmd_probe (tun_name args))).1 = 0 ->
  exists local_ip remote_ip,
    resolve (local_hostname args) = Ok local_ip
    /\ resolve (remote_hostname args) = Ok remote_ip
    /\ main args {| fs := fs (main args s).1.2; os := w |}
       = (Raise (AddressValueError (ipaddress.str local_ip +:+ nl)),
          {| fs := fs (main args s).1.2;
             os := (os_exec w (cmd_probe (tun_name args))).2 |},
          preamble args local_ip remote_ip
          ++ [EvRun (cmd_probe (tun_name args)) 0;
              EvOpenRead (state_path (tun_name args))]).
Proof.
  intros Hok Hprobe. destruct (main_Ok_inv args s code Hok)
    as (_ & l & r & Hl & Hr & _ & _ & Hfs).
  exists l, r. split_and!; [done|done|].
  destruct (os_exec w (cmd_probe (tun_name args))) as [rc w'] eqn:Hexec.
  simpl in Hprobe. subst rc.
  rewrite main_run, Hl, Hr.
  destruct (decision_with_interface l r (tun_name args)
              {| fs := fs (main args s).1.2; os := w |} w' Hexec)
    as (e & -> & _ & _ & _ & He).
  rewrite (He l r); [done|]. simpl. rewrite Hfs. apply lookup_insert_eq.
Qed.

Lemma run_after_success_raises_witness :
  exists local_ip remote_ip,
    @resolve Demo.env "home.example" = Ok local_ip
    /\ @resolve Demo.env "peer.example" = Ok remote_ip
    /\ @main Demo.env Demo.args
         {| fs := fs (@main Demo.env Demo.args Demo.fresh).1.2;
            os := os (@main Demo.env Demo.args Demo.fresh).1.2 |}
       = (Raise (AddressValueError (ipaddress.str local_ip +:+ nl)),
          {| fs := fs (@main Demo.env Demo.args Demo.fresh).1.2;
             os := (@os_exec Demo.env (os (@main Demo.env Demo.args Demo.fresh).1.2)
                      (cmd_probe "autosit")).2 |},
          preamble Demo.args local_ip remote_ip
          ++ [EvRun (cmd_probe "autosit") 0; EvOpenRead (state_path "autosit")]).
Proof.
  apply (@run_after_success_raises Demo.env Demo.args Demo.fresh 0
           (os (@main Demo.env Demo.args Demo.fresh).1.2)).
  - vm_compute. reflexivity.
  - vm_compute. reflexivity.
Defined.



(** X10.  When the state file cannot be written, no run returns, no run
    issues a command other than the probe, and the files stay as they
    were: a run that decides to recreate the interface ends with
    [PermissionError] before the old interface is deleted. *)
Theorem unwritable_state_never_mutates `{Env} args s :
  writable (state_path (tun_name args)) = false ->
  (exists e, (main args s).1.1 = Raise e)
  /\ Forall (fun argv => argv = cmd_probe (tun_name args)) (commands (main args s).2)
  /\ fs (main args s).1.2 = fs s
  /\ (is_Ok (resolve (local_hostname args)) = true ->
      is_Ok (resolve (remote_hostname args)) = true ->
      (os_exec (os s) (cmd_probe (tun_name args))).1 <> 0 ->
      (main args s).1.1 = Raise (PermissionError (state_path (tun_name args)))).
Proof.
  intros Hw.
  destruct (main_cases args s)
    as [(e & He & ->)|[(l & e & Hl & He & ->)|[(l & r & w & e & Hl & Hr & Hprobe & _ & ->)
       |(l & r & rc & w & res & s2 & t & Hl & Hr & Hrc & Hprobe & Hsteps & ->)]]].
  - split_and!; [by eexists|by constructor|done|]. by rewrite He.
  - split_and!; [by eexists|by constructor|done|]. by rewrite He.
  - split_and!; [by eexists|by repeat constructor|done|]. by rewrite Hprobe.
  - rewrite plan_unfold, !run_steps_print, run_steps_save_failed in Hsteps by done.
    injection Hsteps as <- <- <-.
    split_and!; [by eexists|by repeat constructor|done|done].
Qed.

Lemma unwritable_state_never_mutates_witness :
  (exists e, (@main Demo.readonly_env Demo.args Demo.readonly_fresh).1.1 = Raise e)
  /\ Forall (fun argv => argv = cmd_probe "autosit")
            (commands (@main Demo.readonly_env Demo.args Demo.readonly_fresh).2)
  /\ fs (@main Demo.readonly_env Demo.args Demo.readonly_fresh).1.2
     = fs Demo.readonly_fresh
  /\ (is_Ok (@resolve Demo.readonly_env "home.example") = true ->
      is_Ok (@resolve Demo.readonly_env "peer.example") = true ->
      (@os_exec Demo.readonly_env (os Demo.readonly_fresh) (cmd_probe "autosit")).1 <> 0 ->
      (@main Demo.readonly_env Demo.args Demo.readonly_fresh).1.1
      = Raise (PermissionError (state_path "autosit"))).
Proof.
  apply (@unwritable_state_never_mutates Demo.readonly_env Demo.args
           Demo.readonly_fresh).
  reflexivity.
Defined.

(** What holds of every planned command holds of every command run. *)
Lemma main_commands_Forall `{Env} args s (P : list string -> Prop) :
  (forall local_ip remote_ip, Forall P (planned_commands args local_ip remote_ip)) ->
  Forall P (commands (main args s).2).
Proof.
  intros Hplanned.
  destruct (main_cases args s)
    as [(e & _ & ->)|[(l & e & _ & _ & ->)|[(l & r & w & e & _ & _ & _ & _ & ->)
       |(l & r & rc & w & res & s2 & t & Hl & Hr & Hrc & Hprobe & Hsteps & ->)]]].
  - constructor.
  - constructor.
  - specialize (Hplanned l r). apply Forall_cons in Hplanned as [Hhead _].
    by repeat constructor.
  - specialize (Hplanned l r). rewrite <- plan_commands in Hplanned.
    assert (Hc : forall pre, commands (preamble args l r
                   ++ [EvRun (cmd_probe (tun_name args)) rc; EvPrint pre] ++ t)
                 = cmd_probe (tun_name args) :: commands t) by reflexivity.
    cbn [snd]. rewrite Hc. apply Forall_cons in Hplanned as [Hhead Htail].
    constructor; [done|].
    destruct (trace_commands_prefix _ _ _ (run_steps_trace _ _ _ _ _ Hsteps))
      as [rest Hrest].
    rewrite Hrest in Htail. by apply Forall_app in Htail as [? _].
Qed.

(** X11.  Every command a run issues has the name of its tunnel among its
    arguments, but for the two [sysctl] settings: a run never names
    another interface of its own accord. *)
Theorem commands_name_the_tunnel `{Env} args s :
  Forall (fun argv => tun_name args ∈ argv
                      \/ argv = cmd_sysctl "net.ipv4.ip_forward=1"
                      \/ argv = cmd_sysctl "net.ipv6.conf.all.forwarding=1")
         (commands (main args s).2).
Proof.
  apply main_commands_Forall. intros l r.
  unfold planned_commands, apply_commands, mode_commands,
    ipv4_mode_steps, ipv6_mode_steps.
  rewrite omap_app, !Forall_app, !Forall_map.
  split_and!.
  - repeat constructor; left; unfold cmd_probe, cmd_del, cmd_add, cmd_up;
      repeat first [apply list_elem_of_here | apply list_elem_of_further].
  - apply Forall_forall. intros x _. left. unfold cmd_addr.
    do 5 apply list_elem_of_further. apply list_elem_of_here.
  - apply Forall_forall. intros x _. left. unfold cmd_route.
    do 5 apply list_elem_of_further. apply list_elem_of_here.
  - apply Forall_forall. intros x _. left. unfold cmd_route.
    do 5 apply list_elem_of_further. apply list_elem_of_here.
  - destruct (String.eqb (ipv4_mode args) "nat");
      [|destruct (String.eqb (ipv4_mode args) "forward")];
      repeat constructor;
      try (right; left; reflexivity);
      left; unfold cmd_masquerade, cmd_accept;
      repeat first [apply list_elem_of_here | apply list_elem_of_further].
  - destruct (String.eqb (ipv6_mode args) "nat");
      [|destruct (String.eqb (ipv6_mode args) "forward")];
      repeat constructor;
      try (right; right; reflexivity);
      left; unfold cmd_masquerade, cmd_accept;
      repeat first [apply list_elem_of_here | apply list_elem_of_further].
Qed.

Lemma nat_mode_commands args :
  ipv4_mode args = "nat" -> ipv6_mode args = "nat" ->
  mode_commands args
  = [cmd_masquerade "iptables" (tun_name args);
     cmd_masquerade "ip6tables" (tun_name args)].
Proof.
  unfold mode_commands, ipv4_mode_steps, ipv6_mode_steps.
  intros -> ->. reflexivity.
Qed.

(** X12.  With both packet handling modes set to "nat", no run touches
    [sysctl]: forwarding is never switched on; the only [iptables]
    command a run can issue is the IPv4 masquerade rule for the tunnel
    and the only [ip6tables] command the IPv6 one, and a run that returns
    has issued both, last. *)
Theorem nat_modes_masquerade_only `{Env} args s :
  ipv4_mode args = "nat" ->
  ipv6_mode args = "nat" ->
  Forall (fun argv =>
            head argv <> Some "sysctl"
            /\ (head argv = Some "iptables" ->
                argv = cmd_masquerade "iptables" (tun_name args))
            /\ (head argv = Some "ip6tables" ->
                argv = cmd_masquerade "ip6tables" (tun_name args)))
         (commands (main args s).2)
  /\ (forall code, (main args s).1.1 = Ok code ->
        exists before,
          commands (main args s).2
          = before ++ [cmd_masquerade "iptables" (tun_name args);
                       cmd_masquerade "ip6tables" (tun_name args)]).
Proof.
  intros Hmode4 Hmode6. split.
  - apply main_commands_Forall. intros l r.
    unfold planned_commands. rewrite (nat_mode_commands args Hmode4 Hmode6).
    unfold apply_commands. rewrite !Forall_app, !Forall_map.
    split_and!;
      [|apply Forall_forall; intros x _
       |apply Forall_forall; intros x _
       |apply Forall_forall; intros x _|];
      repeat (apply Forall_cons; split); try apply Forall_nil;
      cbv beta; try split_and!; first [done | by intros [=]].
  - intros code Hok.
    destruct (main_Ok_inv args s code Hok) as (_ & l & r & _ & _ & _ & -> & _).
    unfold planned_commands. rewrite (nat_mode_commands args Hmode4 Hmode6).
    eexists. rewrite !app_assoc. reflexivity.
Qed.

Lemma nat_modes_masquerade_only_witness :
  Forall (fun argv =>
            head argv <> Some "sysctl"
            /\ (head argv = Some "iptables" -> argv = cmd_masquerade "iptables" "autosit")
            /\ (head argv = Some "ip6tables" ->
                argv = cmd_masquerade "ip6tables" "autosit"))
         (commands (@main Demo.env Demo.nat_args Demo.fresh).2)
  /\ (forall code, (@main Demo.env Demo.nat_args Demo.fresh).1.1 = Ok code ->
        exists before,
          commands (@main Demo.env Demo.nat_args Demo.fresh).2
          = before ++ [cmd_masquerade "iptables" "autosit";
                       cmd_masquerade "ip6tables" "autosit"]).
Proof.
  apply (@nat_modes_masquerade_only Demo.env Demo.nat_args Demo.fresh); reflexivity.
Defined.

(** On the demonstration host the run with both modes "nat" returns. *)
Example nat_run_returns :
  (@main Demo.env Demo.nat_args Demo.fresh).1.1 = Ok 0
  /\ commands (@main Demo.env Demo.nat_args Demo.fresh).2
     = [cmd_probe "autosit"; cmd_del "autosit";
        cmd_add "autosit" Demo.local_ip Demo.remote_ip; cmd_up "autosit";
        cmd_addr "autosit" "2001:db8:1::1/64";
        cmd_route "autosit" "2001:db8:ff::/48";
        cmd_masquerade "iptables" "autosit"; cmd_masquerade "ip6tables" "autosit"].
Proof. vm_compute. split; reflexivity. Qed.
